(** * pyDroidDepot: the BLE session and command codec of [droid/connection.py]

    A shallow embedding of [DroidConnection] (frame building, command sending,
    connect, disconnect, the heartbeat loop) and of [discover_droid], with the
    properties of the connection life cycle and of the binary command protocol.

    Conventions of the embedding.
    - A Python [int] is a [Z]; a [bytes]/[bytearray] is a [list Z] whose
      elements the constructor checks to lie in [range(256)]; a [float] is a
      binary64 [float] of the kernel; a [str] is a [string].
    - A method is a function of the state that returns a [result] next to the
      state it leaves behind: what was done before a [raise] stays done.
    - The BLE stack (bleak), [time.sleep] and the clock are outside the
      program: every call to them is recorded in a trace, and an environment
      decides, from the trace so far, whether the call raises and what the
      transport and the scanner report.
    - [logging] calls are not modelled. *)

From Stdlib Require Import ZArith String Ascii List Bool Lia DecimalString.
From Stdlib Require Import PrimFloat Uint63.
From stdpp Require Import base gmap.
Import ListNotations.
Open Scope Z_scope.

(** ** Python values and exceptions *)

(** The exception classes the code can meet. [ExternalError] stands for an
    exception class of a library or collaborator (bleak's [BleakError], an
    [OSError] of the radio, ...). *)
Inductive exn : Set :=
| ValueError
| IndexError
| KeyError
| AttributeError
| ExternalError (name : string).

Inductive result (A : Type) : Type :=
| Ok (a : A)
| Raise (e : exn).
Arguments Ok {A} a.
Arguments Raise {A} e.

(** A number held in an attribute: an [int] or a [float]. *)
Inductive pynum : Set :=
| PyInt (z : Z)
| PyFloat (f : float).

(** [float(z)] for an [int] that binary64 holds exactly (|z| < 2^53). *)
Definition float_of_Z (z : Z) : float :=
  if z <? 0 then PrimFloat.opp (PrimFloat.of_uint63 (Uint63.of_Z (- z)))
  else PrimFloat.of_uint63 (Uint63.of_Z z).

(** [a / b] on two small [int]s: true division, a [float]. *)
Definition int_truediv (a b : Z) : float :=
  PrimFloat.div (float_of_Z a) (float_of_Z b).

(** The literal [.1]: the binary64 value nearest to one tenth. *)
Definition tenth : float := 0x1.999999999999ap-4%float.

(** [x == y] on numbers; an [int] compared with a [float] is converted. *)
Definition pynum_eqb (x y : pynum) : bool :=
  match x, y with
  | PyInt a, PyInt b => a =? b
  | PyInt a, PyFloat g => PrimFloat.eqb (float_of_Z a) g
  | PyFloat f, PyInt b => PrimFloat.eqb f (float_of_Z b)
  | PyFloat f, PyFloat g => PrimFloat.eqb f g
  end.

(** [seq[i]] on a sequence: a negative index counts from the end, an index
    outside [-len, len) raises [IndexError]. *)
Definition py_getitem (l : list Z) (i : Z) : result Z :=
  let n := Z.of_nat (length l) in
  if (0 <=? i) && (i <? n) then Ok (nth (Z.to_nat i) l 0)
  else if (- n <=? i) && (i <? 0) then Ok (nth (Z.to_nat (i + n)) l 0)
  else Raise IndexError.

(** ** Hexadecimal strings: [bytes.fromhex] and [bytes.hex] *)

(** The value of a hexadecimal digit, in either case. *)
Definition hex_digit_value (c : ascii) : option Z :=
  let n := Z.of_N (N_of_ascii c) in
  if (48 <=? n) && (n <=? 57) then Some (n - 48)
  else if (97 <=? n) && (n <=? 102) then Some (n - 87)
  else if (65 <=? n) && (n <=? 70) then Some (n - 55)
  else None.

Definition is_hex_digit (c : ascii) : bool :=
  match hex_digit_value c with Some _ => true | None => false end.

(** ASCII whitespace: space, and tab to carriage return. *)
Definition is_space (c : ascii) : bool :=
  let n := Z.of_N (N_of_ascii c) in
  (n =? 32) || ((9 <=? n) && (n <=? 13)).

(** [bytes.fromhex(s)]: two hexadecimal digits per byte; ASCII whitespace is
    skipped where a byte may start, not between the two digits of a byte.
    [None] is Python's [ValueError]. *)
Fixpoint fromhex (s : string) : option (list Z) :=
  match s with
  | EmptyString => Some []
  | String c s' =>
      if is_space c then fromhex s'
      else
        match hex_digit_value c, s' with
        | Some top, String d s'' =>
            match hex_digit_value d with
            | Some bot =>
                match fromhex s'' with
                | Some bs => Some (top * 16 + bot :: bs)
                | None => None
                end
            | None => None
            end
        | _, _ => None
        end
  end.

Definition hex_digit (v : Z) : ascii :=
  ascii_of_N (Z.to_N (if v <? 10 then v + 48 else v + 87)).

(** [b.hex()]: two lower-case digits per byte. *)
Fixpoint hex (bs : list Z) : string :=
  match bs with
  | [] => EmptyString
  | b :: bs' => String (hex_digit (b / 16)) (String (hex_digit (b mod 16)) (hex bs'))
  end.

Definition is_byte (b : Z) : bool := (0 <=? b) && (b <? 256).

(** [bytearray(ints)]: [ValueError] unless every element is in [range(256)]. *)
Definition bytearray_of_ints (l : list Z) : result (list Z) :=
  if forallb is_byte l then Ok l else Raise ValueError.

(** [len(s)] *)
Definition len (s : string) : Z := Z.of_nat (String.length s).

(** ** The frame codec: [DroidConnection.build_droid_command] *)

Definition build_droid_command (command_id : Z) (data : string) : result (list Z) :=
  let data_length := len data / 2 in
  let header_length := 3 in
  let byte2 := if command_id =? 15 then 0x42 else 0x00 in
  let total_length := data_length + header_length in
  let byte1 := Z.lor total_length 0x20 in
  let byte3 := command_id in
  let byte4 := data_length + 0x40 in
  (* try: ... except ValueError: raise ValueError(...) *)
  match bytearray_of_ints [byte1; byte2; byte3; byte4] with
  | Ok command_bytes =>
      match fromhex data with
      | Some payload => Ok (command_bytes ++ payload)
      | None => Raise ValueError
      end
  | Raise _ => Raise ValueError
  end.

(** ["{:02d}".format(n)]: decimal, zero-padded to two characters, the sign
    counted in the width. *)
Definition format_02d (n : Z) : string :=
  let digits := NilZero.string_of_uint (N.to_uint (Z.to_N (Z.abs n))) in
  if n <? 0 then ("-" ++ digits)%string
  else
    (if (String.length digits <? 2)%nat then "0" ++ digits else digits)%string.

(** The payload of a multi command, ["44%s%s" % ("{:02d}".format(command_id), data)]. *)
Definition multi_command_data (command_id : Z) (data : string) : string :=
  ("44" ++ format_02d command_id ++ data)%string.

(** Tests on the characters of a string. *)
Fixpoint all_chars (p : ascii -> bool) (s : string) : bool :=
  match s with
  | EmptyString => true
  | String c s' => p c && all_chars p s'
  end.

Fixpoint any_char (p : ascii -> bool) (s : string) : bool :=
  match s with
  | EmptyString => false
  | String c s' => p c || any_char p s'
  end.

(** A character that [bytes.fromhex] can neither read nor skip. *)
Definition is_foreign (c : ascii) : bool :=
  negb (is_hex_digit c) && negb (is_space c).

(** [s * n] *)
Fixpoint string_repeat (s : string) (n : nat) : string :=
  match n with
  | O => EmptyString
  | S n' => (s ++ string_repeat s n')%string
  end.

(** The four header bytes of a frame that carries [n] payload bytes. *)
Definition frame_header (command_id n : Z) : list Z :=
  [Z.lor (n + 3) 0x20; (if command_id =? 15 then 0x42 else 0x00); command_id; n + 0x40].

(** A payload of 192 zero bytes, in hexadecimal. *)
Definition long_payload : string := string_repeat "00" 192.

(** ** The world outside the program *)

Module Bleak.

(** A [BLEDevice]: its address and the name it advertises, if any. *)
Record BLEDevice : Type := {
  address : string;
  name : option string
}.

(** The [AdvertisementData] of a device. *)
Record AdvertisementData : Type := {
  local_name : option string;
  manufacturer_data : gmap Z (list Z)
}.

End Bleak.

(** What a session is opened on: [__init__] documents a UUID string,
    [discover_droid] passes the [BLEDevice] it found. *)
Inductive Profile : Type :=
| ProfileUUID (uuid : string)
| ProfileDevice (d : Bleak.BLEDevice).

(** [scanner.discovered_devices_and_advertisement_data]: a dict from address
    to device and advertisement, in the order it iterates. *)
Definition Discovered : Type :=
  list (string * (Bleak.BLEDevice * Bleak.AdvertisementData)).

(** The interactions of the program with the BLE stack and the clock. *)
Inductive Event : Type :=
| EvClientNew (p : Profile)                     (* BleakClient(profile) *)
| EvClientConnect                               (* await client.connect() *)
| EvIsConnected (b : bool)                      (* client.is_connected, read as b *)
| EvWrite (handle : Z) (data : list Z) (response : option bool)
                                                (* await client.write_gatt_char(...) *)
| EvClientDisconnect                            (* await client.disconnect() *)
| EvSleep (seconds : pynum)                     (* time.sleep(seconds) *)
| EvScannerEnter                                (* BleakScanner(), entering the async with *)
| EvScannerStart                                (* await scanner.start() *)
| EvScannerRead (seen : Discovered)             (* the discovered devices, as read *)
| EvAsyncSleep (seconds : pynum)                (* await asyncio.sleep(seconds) *)
| EvScannerExit.                                (* leaving the async with block *)

(** The environment answers from the history of interactions: whether a call
    to the transport, to the scanner or to a sleep raises, what
    [is_connected] reports, and which devices the scanner has discovered. *)
Record Env : Type := {
  env_raises : list Event -> Event -> option exn;
  env_is_connected : list Event -> bool;
  env_discovered : list Event -> Discovered
}.

(** ** The session object *)

(** The asyncio loop of the heartbeat thread: whether [stop()] was called on
    it and how many heartbeat coroutines were handed to it. *)
Record EventLoop : Type := {
  loop_stopped : bool;
  loop_coroutines : nat
}.

Definition new_event_loop : EventLoop :=
  {| loop_stopped := false; loop_coroutines := 0 |}.

(** The attributes of a [DroidConnection]. [droid] is [None] until [connect]
    builds the [BleakClient], which is known by the profile it was built on;
    [heartbeat_thread] is [None] ([false]) until [connect] starts the
    thread. The collaborators ([audio_controller], [script_engine],
    [motor_controller]) hold no state that the methods below read. *)
Record DroidConnection : Type := {
  profile : Profile;
  droid : option Profile;
  manufacturer_data : gmap Z (list Z);
  personality_id : Z;
  affilliation_id : pynum;
  heartbeat_loop : option EventLoop;
  heartbeat_thread : bool
}.

Definition set_droid (d : option Profile) (s : DroidConnection) : DroidConnection :=
  {| profile := profile s; droid := d; manufacturer_data := manufacturer_data s;
     personality_id := personality_id s; affilliation_id := affilliation_id s;
     heartbeat_loop := heartbeat_loop s; heartbeat_thread := heartbeat_thread s |}.

Definition set_personality_id (p : Z) (s : DroidConnection) : DroidConnection :=
  {| profile := profile s; droid := droid s; manufacturer_data := manufacturer_data s;
     personality_id := p; affilliation_id := affilliation_id s;
     heartbeat_loop := heartbeat_loop s; heartbeat_thread := heartbeat_thread s |}.

Definition set_affilliation_id (a : pynum) (s : DroidConnection) : DroidConnection :=
  {| profile := profile s; droid := droid s; manufacturer_data := manufacturer_data s;
     personality_id := personality_id s; affilliation_id := a;
     heartbeat_loop := heartbeat_loop s; heartbeat_thread := heartbeat_thread s |}.

Definition set_heartbeat_loop (l : option EventLoop) (s : DroidConnection) : DroidConnection :=
  {| profile := profile s; droid := droid s; manufacturer_data := manufacturer_data s;
     personality_id := personality_id s; affilliation_id := affilliation_id s;
     heartbeat_loop := l; heartbeat_thread := heartbeat_thread s |}.

Definition set_heartbeat_thread (t : bool) (s : DroidConnection) : DroidConnection :=
  {| profile := profile s; droid := droid s; manufacturer_data := manufacturer_data s;
     personality_id := personality_id s; affilliation_id := affilliation_id s;
     heartbeat_loop := heartbeat_loop s; heartbeat_thread := t |}.

(** The state a method runs in: the object and the interactions so far. *)
Record St : Type := {
  self : DroidConnection;
  trace : list Event
}.

(** ** The monad of methods: state that survives a raise *)

Definition M (A : Type) : Type := St -> result A * St.

Definition ret {A : Type} (a : A) : M A := fun st => (Ok a, st).

Definition raise {A : Type} (e : exn) : M A := fun st => (Raise e, st).

Definition bind {A B : Type} (m : M A) (k : A -> M B) : M B :=
  fun st =>
    match m st with
    | (Ok a, st') => k a st'
    | (Raise e, st') => (Raise e, st')
    end.

Notation "'let*' x ':=' m 'in' k" := (bind m (fun x => k))
  (at level 10, x name, m at level 100, k at level 200).

Definition lift {A : Type} (r : result A) : M A := fun st => (r, st).

Definition get_self : M DroidConnection := fun st => (Ok (self st), st).

Definition update_self (f : DroidConnection -> DroidConnection) : M unit :=
  fun st => (Ok tt, {| self := f (self st); trace := trace st |}).

(** [try: body finally: cleanup]: the cleanup runs whatever the body did; its
    own exception, if any, replaces the body's outcome. *)
Definition try_finally {A : Type} (body : M A) (cleanup : M unit) : M A :=
  fun st =>
    match body st with
    | (r, st1) =>
        match cleanup st1 with
        | (Ok _, st2) => (r, st2)
        | (Raise e, st2) => (Raise e, st2)
        end
    end.

(** Modelled from the spec: the audio controller and the script engine
    ([droid.audio], [droid.script]) are missing from the sources; by the
    collaborator contract of the specification they reach the session only
    through [send_droid_command] and [send_droid_multi_command]. What one of
    them does is a list of such calls, of waits, and of failures of its own. *)
Inductive Action : Type :=
| ActCommand (command_id : Z) (data : string)
| ActMultiCommand (command_id : Z) (data : string)
| ActSleep (seconds : pynum)
| ActRaise (e : exn).

(** ** The methods of [DroidConnection] *)

Section Connection.

(** Constants of [droid.protocol] and [droid.hardware], which the code imports. *)
Variable FlashPairingLed : Z.       (* DroidCommand.FlashPairingLed *)
Variable MultipurposeCommand : Z.   (* DroidCommand.MultipurposeCommand *)
Variable DisneyManufacturerId : Z.
Variable RUnit : Z.                 (* DroidPersonalityIdentifier.RUnit *)
Variable Scoundrel : Z.             (* DroidAffiliation.Scoundrel *)

(** What the collaborators do: [script_engine.execute_script(
    DroidScripts.DroidPairingSequence1)] and
    [audio_controller.play_shutdown_audio()]. *)
Variable DroidPairingSequence1 : list Action.
Variable play_shutdown_audio : list Action.

Variable env : Env.

(** [DroidConnection(profile, manufacturer_data)] *)
Definition init (profile : Profile) (manufacturer_data : gmap Z (list Z)) : DroidConnection :=
  {| profile := profile;
     droid := None;
     manufacturer_data := manufacturer_data;
     personality_id := RUnit;
     affilliation_id := PyInt Scoundrel;
     heartbeat_loop := Some new_event_loop;
     heartbeat_thread := false |}.

(** A call that leaves the program: recorded, then answered by the environment. *)
Definition call (ev : Event) : M unit :=
  fun st =>
    let st' := {| self := self st; trace := trace st ++ [ev] |} in
    match env_raises env (trace st) ev with
    | None => (Ok tt, st')
    | Some e => (Raise e, st')
    end.

(** [sleep(seconds)] *)
Definition sleep (seconds : pynum) : M unit := call (EvSleep seconds).

(** An attribute or method of [self.droid]: [AttributeError] while it is [None]. *)
Definition with_droid {A : Type} (k : M A) : M A :=
  let* s := get_self in
  match droid s with
  | None => raise AttributeError
  | Some _ => k
  end.

(** [self.droid.is_connected] *)
Definition droid_is_connected : M bool :=
  with_droid
    (fun st =>
       let b := env_is_connected env (trace st) in
       (Ok b, {| self := self st; trace := trace st ++ [EvIsConnected b] |})).

(** [await self.droid.write_gatt_char(handle, data, response)] *)
Definition droid_write_gatt_char (handle : Z) (data : list Z) (response : option bool) : M unit :=
  with_droid (call (EvWrite handle data response)).

(** [await self.droid.disconnect()] *)
Definition droid_disconnect : M unit :=
  with_droid (call EvClientDisconnect).

(** [bytearray.fromhex(s)] *)
Definition bytearray_fromhex (s : string) : M (list Z) :=
  match fromhex s with
  | Some bs => ret bs
  | None => raise ValueError
  end.

(** [send_droid_command] *)
Definition send_droid_command (command_id : Z) (data : string) : M unit :=
  let* command := lift (build_droid_command command_id data) in
  with_droid
    (let* bs := bytearray_fromhex (hex command) in
     call (EvWrite 0x000d bs None)).

(** [send_droid_multi_command] *)
Definition send_droid_multi_command (command_id : Z) (data : string) : M unit :=
  let command := multi_command_data command_id data in
  send_droid_command MultipurposeCommand command.

(** One step of a collaborator, then the rest; the first failure ends it. *)
Definition run_action (a : Action) : M unit :=
  match a with
  | ActCommand command_id data => send_droid_command command_id data
  | ActMultiCommand command_id data => send_droid_multi_command command_id data
  | ActSleep seconds => sleep seconds
  | ActRaise e => raise e
  end.

Fixpoint run_actions (l : list Action) : M unit :=
  match l with
  | [] => ret tt
  | a :: l' => let* _ := run_action a in run_actions l'
  end.

(** The polling loop of [connect]:
    [while not self.droid.is_connected and timeout < 10: sleep(.1); timeout += .1].
    The fuel bounds the unfolding; [connect_wait_fuel] shows that 102 rounds
    are never used up. *)
Fixpoint connect_wait (fuel : nat) (timeout : float) : M unit :=
  match fuel with
  | O => ret tt
  | S fuel' =>
      let* connected := droid_is_connected in
      if negb connected && PrimFloat.ltb timeout (float_of_Z 10) then
        let* _ := sleep (PyFloat tenth) in
        connect_wait fuel' (PrimFloat.add timeout tenth)
      else ret tt
  end.

(** [connect], lines 72 to 82: open the transport, wait, write the connect
    code twice. *)
Definition connect_handshake : M unit :=
  let timeout := float_of_Z 0 in
  let* s := get_self in
  let* _ := call (EvClientNew (profile s)) in
  let* _ := update_self (set_droid (Some (profile s))) in
  let* _ := with_droid (call EvClientConnect) in
  let* _ := connect_wait 102 timeout in
  let* connect_code := bytearray_fromhex "222001" in
  let* _ := droid_write_gatt_char 0x000d connect_code (Some false) in
  droid_write_gatt_char 0x000d connect_code (Some false).

(** [connect], lines 84 to 87: the identity, from the manufacturer data. *)
Definition connect_identity : M unit :=
  let* s := get_self in
  match manufacturer_data s !! DisneyManufacturerId with
  | None => raise KeyError
  | Some droid_data =>
      let droid_data_len := Z.of_nat (length droid_data) in
      let* p := lift (py_getitem droid_data (droid_data_len - 1)) in
      let* _ := update_self (set_personality_id p) in
      let* a := lift (py_getitem droid_data (droid_data_len - 2)) in
      update_self (set_affilliation_id (PyFloat (int_truediv (a - 0x80) 2)))
  end.

(** [connect], lines 89 to 95: the pairing script unless silent, then the
    heartbeat thread and its coroutine. *)
Definition connect_finish (silent : bool) : M unit :=
  let* _ := (if negb silent
             then let* _ := run_actions DroidPairingSequence1 in sleep (PyInt 4)
             else ret tt) in
  let* _ := update_self (set_heartbeat_thread true) in
  let* s := get_self in
  match heartbeat_loop s with
  | None => raise AttributeError
  | Some l =>
      update_self (set_heartbeat_loop
                     (Some {| loop_stopped := loop_stopped l;
                              loop_coroutines := S (loop_coroutines l) |}))
  end.

Definition connect (silent : bool) : M unit :=
  let* _ := connect_handshake in
  let* _ := connect_identity in
  connect_finish silent.

(** One round of [__send_heartbeat_command]: the loop test and, when it
    holds, the loop body. The boolean tells whether the loop goes on. *)
Definition heartbeat_round : M bool :=
  let* connected := droid_is_connected in
  if connected then
    let* _ := send_droid_command FlashPairingLed "020001ff01ff0aff00" in
    let* _ := sleep (PyInt 10) in
    ret true
  else ret false.

(** The keep-alive task, [__send_heartbeat_command], as it runs on its own
    loop: it is about to test the loop condition, or it has left the loop, or
    an exception has ended it. *)
Inductive Task : Type :=
| Running (st : St)
| Finished (st : St)
| Failed (e : exn) (st : St).

(** One round of the loop takes a running task to its next state; a task
    that has finished or failed takes no step. *)
Inductive heartbeat_step : Task -> Task -> Prop :=
| heartbeat_go_on st st' :
    heartbeat_round st = (Ok true, st') ->
    heartbeat_step (Running st) (Running st')
| heartbeat_leave st st' :
    heartbeat_round st = (Ok false, st') ->
    heartbeat_step (Running st) (Finished st')
| heartbeat_fail st e st' :
    heartbeat_round st = (Raise e, st') ->
    heartbeat_step (Running st) (Failed e st').

(** Any number of steps. *)
Inductive heartbeat_steps : Task -> Task -> Prop :=
| heartbeat_steps_refl t : heartbeat_steps t t
| heartbeat_steps_step t1 t2 t3 :
    heartbeat_steps t1 t2 -> heartbeat_step t2 t3 -> heartbeat_steps t1 t3.

(** [disconnect]: the body of the [try], the [finally] block, the method. *)
Definition disconnect_cue (silent : bool) : M unit :=
  if negb silent
  then let* _ := run_actions play_shutdown_audio in sleep (PyInt 3)
  else ret tt.

Definition disconnect_close : M unit :=
  let* _ := droid_disconnect in
  let* s := get_self in
  match heartbeat_loop s with
  | Some l =>
      update_self (set_heartbeat_loop
                     (Some {| loop_stopped := true;
                              loop_coroutines := loop_coroutines l |}))
  | None => ret tt
  end.

Definition disconnect (silent : bool) : M unit :=
  try_finally (disconnect_cue silent) disconnect_close.

End Connection.

(** ** Discovery *)

(** [find_droid] *)
Definition find_droid (device : Bleak.BLEDevice) (advertising_data : Bleak.AdvertisementData) : bool :=
  match Bleak.local_name advertising_data with
  | Some n => String.eqb n "DROID"
  | None => false
  end.

(** The [for] loop of [discover_droid]: the devices named ["DROID"], each
    with its manufacturer data, in the order of the dict. *)
Fixpoint matching_droids (possible_droids : Discovered) : list (Bleak.BLEDevice * gmap Z (list Z)) :=
  match possible_droids with
  | [] => []
  | (_, (ble_device, advertising_data)) :: rest =>
      match Bleak.name ble_device with
      | Some n =>
          if String.eqb n "DROID"
          then (ble_device, Bleak.manufacturer_data advertising_data) :: matching_droids rest
          else matching_droids rest
      | None => matching_droids rest
      end
  end.

(** How the [while] loop of [discover_droid] is left: by the [return] inside
    it, by its condition, with [discovered_droid] as it stands, or by an
    exception that a call inside it raised. *)
Inductive LoopExit : Type :=
| Returned
| Fell (discovered_droid : option (Bleak.BLEDevice * gmap Z (list Z)))
| Raised (e : exn).

Section Discovery.

Variable RUnit : Z.
Variable Scoundrel : Z.
Variable env : Env.

(** The [while retry and len(droids) == 0] loop. The condition is tested
    before any fuel is used; [None] means the fuel ran out. The [try] of the
    loop holds no call, so its [except BleakError] catches nothing; what
    [asyncio.sleep] raises leaves the loop. *)
Fixpoint discover_loop (fuel : nat) (retry : bool)
    (droids : list (Bleak.BLEDevice * gmap Z (list Z)))
    (discovered_droid : option (Bleak.BLEDevice * gmap Z (list Z)))
    (tr : list Event) : option (LoopExit * list Event) :=
  if retry && (length droids =? 0)%nat then
    match fuel with
    | O => None
    | S fuel' =>
        let possible_droids := env_discovered env tr in
        let tr1 := tr ++ [EvScannerRead possible_droids] in
        let slept :=
          if (length possible_droids =? 0)%nat
          then (env_raises env tr1 (EvAsyncSleep (PyInt 5)),
                tr1 ++ [EvAsyncSleep (PyInt 5)])
          else (None, tr1) in
        match slept with
        | (Some e, tr2) => Some (Raised e, tr2)
        | (None, tr2) =>
            let droids' := droids ++ matching_droids possible_droids in
            match droids' with
            | [] =>
                if negb retry then Some (Returned, tr2)
                else discover_loop fuel' retry droids' discovered_droid tr2
            | first :: _ => discover_loop fuel' retry droids' (Some first) tr2
            end
        end
    end
  else Some (Fell discovered_droid, tr).

(** [discover_droid]: [None] when the fuel ran out, otherwise the value
    returned, [None] or a new [DroidConnection], or the exception raised,
    and the trace. [EvScannerEnter] is [BleakScanner()] and the entry of the
    [async with] block: when it raises, the block is not entered and not
    left. Once entered, the block is left ([EvScannerExit]) however its body
    ended; what leaving it raises replaces the outcome of the body. *)
Definition discover_droid (fuel : nat) (retry : bool) (tr : list Event)
  : option (result (option DroidConnection) * list Event) :=
  let discovered_droid := None in
  let tr0 := tr ++ [EvScannerEnter] in
  match env_raises env tr EvScannerEnter with
  | Some e => Some (Raise e, tr0)
  | None =>
      let tr1 := tr0 ++ [EvScannerStart] in
      let droids := [] in
      let body :=
        match env_raises env tr0 EvScannerStart with
        | Some e => Some (Raised e, tr1)
        | None => discover_loop fuel retry droids discovered_droid tr1
        end in
      match body with
      | None => None
      | Some (exit, tr2) =>
          let tr3 := tr2 ++ [EvScannerExit] in
          match env_raises env tr2 EvScannerExit with
          | Some e => Some (Raise e, tr3)
          | None =>
              match exit with
              | Raised e => Some (Raise e, tr3)
              | Returned => Some (Ok None, tr3)
              | Fell None => Some (Ok None, tr3)
              | Fell (Some (ble_device, manufacturer_data)) =>
                  Some (Ok (Some (init RUnit Scoundrel (ProfileDevice ble_device)
                                    manufacturer_data)), tr3)
              end
          end
      end
  end.

End Discovery.

(** ** Notions used by the properties *)

(** The writes among the interactions. *)
Definition is_write (ev : Event) : bool :=
  match ev with
  | EvWrite _ _ _ => true
  | _ => false
  end.

(** The value of [timeout] after [k] more rounds of the polling loop. *)
Fixpoint ticks (k : nat) (timeout : float) : float :=
  match k with
  | O => timeout
  | S k' => ticks k' (PrimFloat.add timeout tenth)
  end.

(** A computation that leaves the object as it is and adds to the trace
    only interactions that satisfy [P]. *)
Definition emits {A : Type} (P : Event -> Prop) (m : M A) : Prop :=
  forall st r st', m st = (r, st') ->
    self st' = self st /\ exists evs, trace st' = trace st ++ evs /\ Forall P evs.

(** The state a task is in. *)
Definition task_state (t : Task) : St :=
  match t with
  | Running st => st
  | Finished st => st
  | Failed _ st => st
  end.

(** The frame of the heartbeat, for a command id that is a byte. *)
Definition heartbeat_frame (FlashPairingLed : Z) : list Z :=
  [0x2c; (if FlashPairingLed =? 15 then 0x42 else 0x00); FlashPairingLed; 0x49;
   0x02; 0x00; 0x01; 0xff; 0x01; 0xff; 0x0a; 0xff; 0x00].

(** The interactions of one full round of the heartbeat: the transport
    reports itself connected, the frame is written, ten seconds pass. *)
Definition heartbeat_beat (FlashPairingLed : Z) : list Event :=
  [EvIsConnected true; EvWrite 0x000d (heartbeat_frame FlashPairingLed) None;
   EvSleep (PyInt 10)].

(** The write of the connect code. *)
Definition connect_code_write : Event :=
  EvWrite 0x000d [0x22; 0x20; 0x01] (Some false).

(** The step a task takes, as a function, and [n] steps in a row; a task
    that has finished or failed stays as it is. *)
Definition heartbeat_next (FlashPairingLed : Z) (env : Env) (t : Task) : Task :=
  match t with
  | Running st =>
      match heartbeat_round FlashPairingLed env st with
      | (Ok true, st') => Running st'
      | (Ok false, st') => Finished st'
      | (Raise e, st') => Failed e st'
      end
  | _ => t
  end.

Fixpoint heartbeat_run (FlashPairingLed : Z) (env : Env) (n : nat) (t : Task) : Task :=
  match n with
  | O => t
  | S k => heartbeat_run FlashPairingLed env k (heartbeat_next FlashPairingLed env t)
  end.

(** ** Sample worlds *)

(** An environment in which nothing raises, the transport reports itself
    connected and the scanner has seen nothing. *)
Definition quiet_env : Env :=
  {| env_raises := fun _ _ => None;
     env_is_connected := fun _ => true;
     env_discovered := fun _ => [] |}.

(** An environment in which the transport reports itself connected until
    five interactions have taken place. *)
Definition fading_env : Env :=
  {| env_raises := fun _ _ => None;
     env_is_connected := fun tr => (length tr <? 5)%nat;
     env_discovered := fun _ => [] |}.

(** An environment whose scanner has seen a droid and another device. *)
Definition droid_nearby_env : Env :=
  {| env_raises := fun _ _ => None;
     env_is_connected := fun _ => true;
     env_discovered := fun _ =>
       [("AA:01"%string,
         ({| Bleak.address := "AA:01"; Bleak.name := Some "TV"%string |},
          {| Bleak.local_name := Some "TV"%string; Bleak.manufacturer_data := ∅ |}));
        ("AA:02"%string,
         ({| Bleak.address := "AA:02"; Bleak.name := Some "DROID"%string |},
          {| Bleak.local_name := Some "DROID"%string;
             Bleak.manufacturer_data := {[ 0x0183 := [0x03; 0x04; 0x80; 0x07] ]} |}))] |}.

(** An environment whose transport refuses a write once it has been closed. *)
Definition strict_env : Env :=
  {| env_raises := fun tr ev =>
       if is_write ev && existsb (fun e => match e with
                                           | EvClientDisconnect => true
                                           | _ => false
                                           end) tr
       then Some (ExternalError "BleakError") else None;
     env_is_connected := fun _ => true;
     env_discovered := fun _ => [] |}.

(** A shutdown cue of one command. *)
Definition short_cue : list Action := [ActMultiCommand 1 "00"].

(** A shutdown cue that sends one command and then fails. *)
Definition failing_cue : list Action :=
  [ActMultiCommand 1 "00"; ActRaise (ExternalError "audio")].

(** The vendor bytes of the sample droid. *)
Definition sample_droid_data : list Z := [0x03; 0x04; 0x80; 0x07].

(** A new session whose manufacturer data hold [droid_data] under the
    vendor id [0x0183]. *)
Definition new_session (droid_data : list Z) : St :=
  {| self := init 1 0 (ProfileUUID "droid") {[ 0x0183 := droid_data ]};
     trace := [] |}.

(** The same session once [connect] has built its transport. *)
Definition opened_session (droid_data : list Z) : St :=
  {| self := set_droid (Some (ProfileUUID "droid")) (self (new_session droid_data));
     trace := [] |}.

(** ** Notions used by the further properties *)

(** The sleeps and the closes among the interactions. *)
Definition is_sleep (ev : Event) : bool :=
  match ev with
  | EvSleep _ => true
  | _ => false
  end.

Definition is_close (ev : Event) : bool :=
  match ev with
  | EvClientDisconnect => true
  | _ => false
  end.

(** A computation that adds to the trace only interactions that satisfy
    [P], whatever it does to the object. *)
Definition traces {A : Type} (P : Event -> Prop) (m : M A) : Prop :=
  forall st r st', m st = (r, st') ->
    exists evs, trace st' = trace st ++ evs /\ Forall P evs.

(** The byte whose two hexadecimal digits are the two decimal digits of
    [n]: what ["{:02d}"] followed by [bytes.fromhex] makes of [n]. *)
Definition packed_decimal (n : Z) : Z := 16 * (n / 10) + n mod 10.

(** The two decimal digits of [n], as a string. *)
Definition two_digits (n : Z) : string :=
  String (hex_digit (n / 10)) (String (hex_digit (n mod 10)) EmptyString).

(** The interactions of the polling loop of [connect] on a transport that
    keeps reporting itself disconnected, with no call raising. *)
Fixpoint wait_events (fuel : nat) (timeout : float) : list Event :=
  match fuel with
  | O => []
  | S fuel' =>
      EvIsConnected false ::
      (if PrimFloat.ltb timeout (float_of_Z 10)
       then EvSleep (PyFloat tenth) :: wait_events fuel' (PrimFloat.add timeout tenth)
       else [])
  end.

(** The interactions of one round of the discovery loop that read
    [possible_droids]. *)
Definition poll_events (possible_droids : Discovered) : list Event :=
  EvScannerRead possible_droids ::
  (if (length possible_droids =? 0)%nat then [EvAsyncSleep (PyInt 5)] else []).

(** How many interactions of a trace satisfy a test. *)
Fixpoint count_events (p : Event -> bool) (l : list Event) : nat :=
  match l with
  | [] => O
  | ev :: l' => ((if p ev then 1 else 0) + count_events p l')%nat
  end.

Definition is_status_read (ev : Event) : bool :=
  match ev with
  | EvIsConnected _ => true
  | _ => false
  end.

(** An environment whose transport never reports itself connected. *)
Definition deaf_env : Env :=
  {| env_raises := fun _ _ => None;
     env_is_connected := fun _ => false;
     env_discovered := fun _ => [] |}.

(** An environment whose transport raises on every close. *)
Definition stuck_env : Env :=
  {| env_raises := fun _ ev =>
       if is_close ev then Some (ExternalError "BleakError") else None;
     env_is_connected := fun _ => true;
     env_discovered := fun _ => [] |}.

(** An environment whose scanner sees nothing twice, then a droid. *)
Definition late_droid_env : Env :=
  {| env_raises := fun _ _ => None;
     env_is_connected := fun _ => true;
     env_discovered := fun tr =>
       if (length tr <? 6)%nat then [] else env_discovered droid_nearby_env tr |}.

(** The calls to the scanner return: building and entering it, starting
    it and leaving it never raise. *)
Definition scanner_returns (env : Env) : Prop :=
  forall history,
    env_raises env history EvScannerEnter = None /\
    env_raises env history EvScannerStart = None /\
    env_raises env history EvScannerExit = None.

(** One period of the Keep-Alive Task as the specification words it, over
    the flag the transport reports and the sends: while the transport
    reports itself connected the status frame is sent and ten time units
    pass, a send or a sleep that raises ending the task; once the transport
    reports itself disconnected the task has stopped and nothing is sent.
    [heartbeat_round], from the code, is compared with it. *)
Definition keep_alive_round (FlashPairingLed : Z) (env : Env) (st : St) : Task :=
  let frame := EvWrite 0x000d (heartbeat_frame FlashPairingLed) None in
  if env_is_connected env (trace st) then
    match env_raises env (trace st ++ [EvIsConnected true]) frame with
    | Some e =>
        Failed e {| self := self st; trace := trace st ++ [EvIsConnected true; frame] |}
    | None =>
        match env_raises env (trace st ++ [EvIsConnected true; frame]) (EvSleep (PyInt 10)) with
        | Some e =>
            Failed e {| self := self st;
                        trace := trace st ++ heartbeat_beat FlashPairingLed |}
        | None =>
            Running {| self := self st;
                       trace := trace st ++ heartbeat_beat FlashPairingLed |}
        end
    end
  else Finished {| self := self st; trace := trace st ++ [EvIsConnected false] |}.


(** * Properties *)

(** Closes a goal [is_byte b = true] when the bounds of [b] follow by
    linear arithmetic. *)
Ltac byte_range :=
  unfold is_byte; apply andb_true_intro;
  split; [apply Z.leb_le | apply Z.ltb_lt]; lia.

(** ** Numbers *)

(** Halving the offset of a byte is exact in binary64: twice the result is
    the offset again, for each of the 256 bytes. *)
Lemma int_truediv_byte_exact :
  forallb
    (fun b => PrimFloat.eqb (PrimFloat.mul (int_truediv (b - 0x80) 2) (float_of_Z 2))
                            (float_of_Z (b - 0x80)))
    (map Z.of_nat (seq 0 256)) = true.
Proof. vm_compute. reflexivity. Qed.

(** ** Hexadecimal strings *)

Lemma hex_digit_value_range (c : ascii) (v : Z) :
  hex_digit_value c = Some v -> 0 <= v < 16.
Proof.
  destruct c as [[] [] [] [] [] [] [] []]; intros H; vm_compute in H;
    inversion H; lia.
Qed.

Lemma hex_digit_not_space (c : ascii) :
  is_hex_digit c = true -> is_space c = false.
Proof.
  destruct c as [[] [] [] [] [] [] [] []]; vm_compute; congruence.
Qed.

Lemma is_hex_digit_value (c : ascii) :
  is_hex_digit c = true -> exists v, hex_digit_value c = Some v.
Proof.
  unfold is_hex_digit. destruct (hex_digit_value c) as [v|]; [eauto | discriminate].
Qed.

(** A string of hexadecimal digits of even length decodes, to half as many
    bytes. *)
Lemma fromhex_hex_digits (n : nat) :
  forall data, (String.length data <= n)%nat ->
    all_chars is_hex_digit data = true ->
    Nat.even (String.length data) = true ->
    exists payload,
      fromhex data = Some payload /\
      (2 * length payload = String.length data)%nat /\
      forallb is_byte payload = true.
Proof.
  induction n as [n IH] using lt_wf_ind.
  intros [|c [|d rest]] Hlen Hhex Heven.
  - exists []. repeat split; reflexivity.
  - discriminate Heven.
  - cbn [all_chars] in Hhex.
    apply andb_prop in Hhex as [Hc Hhex]. apply andb_prop in Hhex as [Hd Hrest].
    cbn [String.length] in Hlen, Heven.
    destruct (IH (String.length rest)) with (data := rest) as (payload & Hp & Hl & Hb);
      [lia | lia | exact Hrest | exact Heven |].
    destruct (is_hex_digit_value c Hc) as [top Htop].
    destruct (is_hex_digit_value d Hd) as [bot Hbot].
    exists (top * 16 + bot :: payload).
    cbn [fromhex]. rewrite (hex_digit_not_space c Hc), Htop, Hbot, Hp.
    split; [reflexivity|]. split; [cbn [length String.length]; lia|].
    cbn [forallb]. rewrite Hb, andb_true_r.
    apply hex_digit_value_range in Htop, Hbot. byte_range.
Qed.

(** A character that is neither a digit nor whitespace makes the decoding fail. *)
Lemma fromhex_foreign (n : nat) :
  forall data, (String.length data <= n)%nat ->
    any_char is_foreign data = true -> fromhex data = None.
Proof.
  induction n as [n IH] using lt_wf_ind.
  intros [|c rest] Hlen Hany; [discriminate Hany|].
  cbn [any_char] in Hany. cbn [String.length] in Hlen. cbn [fromhex].
  destruct (is_space c) eqn:Hsp.
  - unfold is_foreign in Hany at 1. rewrite Hsp, andb_false_r in Hany.
    apply (IH (String.length rest)); [lia | lia | exact Hany].
  - destruct (hex_digit_value c) as [top|] eqn:Htop; [|reflexivity].
    destruct rest as [|d rest']; [reflexivity|].
    destruct (hex_digit_value d) as [bot|] eqn:Hbot; [|reflexivity].
    unfold is_foreign in Hany at 1. unfold is_hex_digit in Hany at 1.
    rewrite Htop in Hany. cbn [negb andb orb any_char] in Hany.
    unfold is_foreign in Hany at 1. unfold is_hex_digit in Hany at 1.
    rewrite Hbot in Hany. cbn [negb andb orb] in Hany.
    cbn [String.length] in Hlen.
    rewrite (IH (String.length rest')); [reflexivity | lia | lia | exact Hany].
Qed.

(** An odd number of hexadecimal digits makes the decoding fail. *)
Lemma fromhex_odd (n : nat) :
  forall data, (String.length data <= n)%nat ->
    all_chars is_hex_digit data = true ->
    Nat.odd (String.length data) = true -> fromhex data = None.
Proof.
  induction n as [n IH] using lt_wf_ind.
  intros [|c [|d rest]] Hlen Hhex Hodd.
  - discriminate Hodd.
  - cbn [all_chars] in Hhex. apply andb_prop in Hhex as [Hc _].
    cbn [fromhex]. rewrite (hex_digit_not_space c Hc).
    destruct (hex_digit_value c); reflexivity.
  - cbn [all_chars] in Hhex.
    apply andb_prop in Hhex as [Hc Hhex]. apply andb_prop in Hhex as [Hd Hrest].
    cbn [String.length] in Hlen.
    assert (Hodd' : Nat.odd (String.length rest) = true).
    { cbn [String.length] in Hodd. rewrite Nat.odd_succ_succ in Hodd. exact Hodd. }
    cbn [fromhex]. rewrite (hex_digit_not_space c Hc).
    destruct (hex_digit_value c); [|reflexivity].
    destruct (hex_digit_value d); [|reflexivity].
    rewrite (IH (String.length rest)); [reflexivity | lia | lia | exact Hrest | exact Hodd'].
Qed.

Lemma hex_digit_roundtrip (v : Z) :
  0 <= v < 16 ->
  hex_digit_value (hex_digit v) = Some v /\ is_space (hex_digit v) = false.
Proof.
  intros Hv.
  assert (H : v = 0 \/ v = 1 \/ v = 2 \/ v = 3 \/ v = 4 \/ v = 5 \/ v = 6 \/ v = 7 \/
              v = 8 \/ v = 9 \/ v = 10 \/ v = 11 \/ v = 12 \/ v = 13 \/ v = 14 \/ v = 15)
    by lia.
  repeat (destruct H as [H|H]; [subst v; split; reflexivity|]).
  subst v; split; reflexivity.
Qed.

(** [bytes.fromhex(b.hex()) == b] *)
Lemma fromhex_hex (bs : list Z) :
  forallb is_byte bs = true -> fromhex (hex bs) = Some bs.
Proof.
  induction bs as [|b bs IH]; intros Hb; [reflexivity|].
  cbn [forallb] in Hb. apply andb_prop in Hb as [Hb Hbs].
  unfold is_byte in Hb. apply andb_prop in Hb as [Hlo Hhi].
  apply Z.leb_le in Hlo. apply Z.ltb_lt in Hhi.
  assert (Hq : 0 <= b / 16 < 16).
  { split; [apply Z.div_pos; lia | apply Z.div_lt_upper_bound; lia]. }
  assert (Hr : 0 <= b mod 16 < 16) by (apply Z.mod_pos_bound; lia).
  destruct (hex_digit_roundtrip _ Hq) as [Hq1 Hq2].
  destruct (hex_digit_roundtrip _ Hr) as [Hr1 _].
  cbn [hex fromhex]. rewrite Hq2, Hq1, Hr1, (IH Hbs).
  f_equal. f_equal. pose proof (Z.div_mod b 16). lia.
Qed.

(** ** The frame codec *)

Lemma lor_byte (a b : Z) :
  0 <= a < 256 -> 0 <= b < 256 -> 0 <= Z.lor a b < 256.
Proof.
  intros Ha Hb. split; [apply Z.lor_nonneg; lia|].
  destruct (Z.eq_dec (Z.lor a b) 0) as [H0|H0]; [lia|].
  assert (Hpos : 0 < Z.lor a b) by (pose proof (proj2 (Z.lor_nonneg a b)); lia).
  change 256 with (2 ^ 8). apply Z.log2_lt_pow2; [exact Hpos|].
  rewrite Z.log2_lor by lia.
  assert (Hlog : forall x, 0 <= x < 256 -> Z.log2 x < 8).
  { intros x Hx. destruct (Z.eq_dec x 0) as [->|Hx0]; [reflexivity|].
    apply Z.log2_lt_pow2; [lia | change (2 ^ 8) with 256; lia]. }
  apply Z.max_lub_lt; apply Hlog; assumption.
Qed.

(** C1, as the code has it. For every [command_id] in [0,255] and every
    payload string of hexadecimal digits, of even length and of at most 191
    bytes, the string decodes and the frame built is the four bytes
    [(n + 3) | 0x20], the flag ([0x42] for command 15, [0x00] otherwise),
    [command_id], [n + 0x40], followed by the decoded bytes, [n] being their
    number. *)
Theorem build_droid_command_frame (command_id : Z) (data : string) :
  0 <= command_id <= 255 ->
  all_chars is_hex_digit data = true ->
  Nat.even (String.length data) = true ->
  len data / 2 <= 191 ->
  exists payload,
    fromhex data = Some payload /\
    2 * Z.of_nat (length payload) = len data /\
    build_droid_command command_id data =
      Ok (frame_header command_id (Z.of_nat (length payload)) ++ payload).
Proof.
  intros Hid Hhex Heven Hsize.
  destruct (fromhex_hex_digits (String.length data) data (Nat.le_refl _) Hhex Heven)
    as (payload & Hp & Hl & _).
  exists payload. split; [exact Hp|].
  assert (Hn : len data / 2 = Z.of_nat (length payload)).
  { unfold len. rewrite <- Hl, Nat2Z.inj_mul. change (Z.of_nat 2) with 2.
    rewrite Z.mul_comm. apply Z.div_mul. lia. }
  split; [unfold len; lia|].
  unfold build_droid_command, frame_header. rewrite Hn in *. rewrite Hp.
  set (n := Z.of_nat (length payload)) in *.
  assert (Hn0 : 0 <= n) by (unfold n; lia).
  assert (Hb1 : is_byte (Z.lor (n + 3) 32) = true).
  { pose proof (lor_byte (n + 3) 32 ltac:(lia) ltac:(lia)) as H. byte_range. }
  assert (Hb2 : is_byte (if command_id =? 15 then 66 else 0) = true)
    by (destruct (command_id =? 15); reflexivity).
  assert (Hb3 : is_byte command_id = true) by byte_range.
  assert (Hb4 : is_byte (n + 64) = true) by byte_range.
  unfold bytearray_of_ints. cbn [forallb]. rewrite Hb1, Hb2, Hb3, Hb4. reflexivity.
Qed.

Lemma build_droid_command_frame_witness :
  exists payload,
    fromhex "4405ff" = Some payload /\
    2 * Z.of_nat (length payload) = len "4405ff" /\
    build_droid_command 15 "4405ff" =
      Ok (frame_header 15 (Z.of_nat (length payload)) ++ payload).
Proof.
  apply (build_droid_command_frame 15 "4405ff");
    [lia | reflexivity | reflexivity | vm_compute; discriminate].
Defined.

(** C1, as the claim has it, fails on a long payload: 384 hexadecimal
    digits decode to 192 bytes, and no frame is built, because
    [192 + 0x40] is not a byte. *)
Lemma build_droid_command_long_payload :
  Nat.even (String.length long_payload) = true /\
  fromhex long_payload = Some (repeat 0 192) /\
  build_droid_command 1 long_payload = Raise ValueError.
Proof. repeat split; vm_compute; reflexivity. Qed.

(** C2, as the code has it. For every [command_id], a payload string that
    holds a character that is neither a hexadecimal digit nor ASCII
    whitespace, or that is made of hexadecimal digits and is of odd length,
    makes the encoder raise [ValueError]; [send_droid_command] then raises
    it too and leaves the state as it was: nothing is written. *)
Theorem build_droid_command_malformed (command_id : Z) (data : string) :
  any_char is_foreign data = true \/
  (all_chars is_hex_digit data = true /\ Nat.odd (String.length data) = true) ->
  build_droid_command command_id data = Raise ValueError /\
  forall env st, send_droid_command env command_id data st = (Raise ValueError, st).
Proof.
  intros H.
  assert (Hnone : fromhex data = None).
  { destruct H as [H | [H1 H2]].
    - exact (fromhex_foreign _ data (Nat.le_refl _) H).
    - exact (fromhex_odd _ data (Nat.le_refl _) H1 H2). }
  assert (Hb : build_droid_command command_id data = Raise ValueError).
  { unfold build_droid_command. rewrite Hnone.
    destruct (bytearray_of_ints _); reflexivity. }
  split; [exact Hb|].
  intros env st. unfold send_droid_command, bind, lift. rewrite Hb. reflexivity.
Qed.

Lemma build_droid_command_malformed_witness :
  build_droid_command 7 "abc" = Raise ValueError /\
  forall env st, send_droid_command env 7 "abc" st = (Raise ValueError, st).
Proof.
  apply (build_droid_command_malformed 7 "abc"). right. split; reflexivity.
Defined.

(** C2, as the claim has it, fails on a payload with whitespace: ["ab "] is of
    odd length and holds a character that is no hexadecimal digit, and the
    encoder returns a frame. *)
Lemma build_droid_command_whitespace :
  Nat.odd (String.length "ab ") = true /\
  all_chars is_hex_digit "ab " = false /\
  build_droid_command 0 "ab " = Ok [0x24; 0x00; 0; 0x41; 0xab].
Proof. repeat split; reflexivity. Qed.

(** C5. The multi command 5 with payload ["ff"] is the multipurpose command
    with payload ["4405ff"]: the same payload string, the same frame, the
    same write. *)
Theorem multi_command_5_ff (MultipurposeCommand : Z) (env : Env) (st : St) :
  multi_command_data 5 "ff" = "4405ff"%string /\
  build_droid_command MultipurposeCommand (multi_command_data 5 "ff") =
    build_droid_command MultipurposeCommand "4405ff" /\
  send_droid_multi_command MultipurposeCommand env 5 "ff" st =
    send_droid_command env MultipurposeCommand "4405ff" st.
Proof. repeat split; reflexivity. Qed.

(** ** What the primitives do to the state *)

Section SessionProperties.

Variable FlashPairingLed : Z.
Variable MultipurposeCommand : Z.
Variable DisneyManufacturerId : Z.
Variable DroidPairingSequence1 : list Action.
Variable play_shutdown_audio : list Action.
Variable env : Env.

Lemma emits_weaken {A : Type} (P Q : Event -> Prop) (m : M A) :
  (forall ev, P ev -> Q ev) -> emits P m -> emits Q m.
Proof.
  intros HPQ Hm st r st' E. destruct (Hm st r st' E) as (Hs & evs & Ht & Hall).
  split; [exact Hs|]. exists evs. split; [exact Ht|].
  eapply Forall_impl; [exact Hall | exact HPQ].
Qed.

Lemma emits_ret {A : Type} (P : Event -> Prop) (a : A) : emits P (ret a).
Proof.
  intros st r st' E. inversion E; subst. split; [reflexivity|].
  exists []. rewrite app_nil_r. split; [reflexivity | constructor].
Qed.

Lemma emits_raise {A : Type} (P : Event -> Prop) (e : exn) : emits P (@raise A e).
Proof.
  intros st r st' E. inversion E; subst. split; [reflexivity|].
  exists []. rewrite app_nil_r. split; [reflexivity | constructor].
Qed.

Lemma emits_lift {A : Type} (P : Event -> Prop) (x : result A) : emits P (lift x).
Proof.
  intros st r st' E. inversion E; subst. split; [reflexivity|].
  exists []. rewrite app_nil_r. split; [reflexivity | constructor].
Qed.

Lemma emits_bind {A B : Type} (P : Event -> Prop) (m : M A) (k : A -> M B) :
  emits P m -> (forall a, emits P (k a)) -> emits P (bind m k).
Proof.
  intros Hm Hk st r st' E. unfold bind in E.
  destruct (m st) as [[a|e] st1] eqn:Em.
  - destruct (Hm _ _ _ Em) as (Hs1 & evs1 & Ht1 & Hall1).
    destruct (Hk a _ _ _ E) as (Hs2 & evs2 & Ht2 & Hall2).
    split; [congruence|]. exists (evs1 ++ evs2).
    split; [rewrite Ht2, Ht1, app_assoc; reflexivity | apply Forall_app; auto].
  - inversion E; subst. exact (Hm _ _ _ Em).
Qed.

Lemma emits_call (P : Event -> Prop) (ev : Event) : P ev -> emits P (call env ev).
Proof.
  intros HP st r st' E. unfold call in E.
  destruct (env_raises env (trace st) ev); inversion E; subst; cbn;
    (split; [reflexivity|]); exists [ev]; (split; [reflexivity|]); repeat constructor; exact HP.
Qed.

Lemma emits_get_self (P : Event -> Prop) : emits P get_self.
Proof.
  intros st r st' E. inversion E; subst. split; [reflexivity|].
  exists []. rewrite app_nil_r. split; [reflexivity | constructor].
Qed.

Lemma emits_with_droid {A : Type} (P : Event -> Prop) (k : M A) :
  emits P k -> emits P (with_droid k).
Proof.
  intros Hk. unfold with_droid. apply emits_bind; [apply emits_get_self|].
  intros s. destruct (droid s); [exact Hk | apply emits_raise].
Qed.

Create HintDb emits.
#[local] Hint Resolve emits_ret emits_raise emits_lift emits_get_self emits_bind
  emits_call emits_with_droid : emits.

Lemma emits_is_connected (P : Event -> Prop) :
  (forall b, P (EvIsConnected b)) -> emits P (droid_is_connected env).
Proof.
  intros HP. unfold droid_is_connected. apply emits_with_droid.
  intros st r st' E. inversion E; subst; cbn. split; [reflexivity|].
  eexists. split; [reflexivity|]. repeat constructor. apply HP.
Qed.

Lemma emits_write (P : Event -> Prop) (handle : Z) (data : list Z) (response : option bool) :
  P (EvWrite handle data response) ->
  emits P (droid_write_gatt_char env handle data response).
Proof.
  intros HP. unfold droid_write_gatt_char. apply emits_with_droid, emits_call, HP.
Qed.

Lemma emits_send_droid_command (command_id : Z) (data : string) :
  emits (fun _ => True) (send_droid_command env command_id data).
Proof.
  assert (Hhex : forall s, emits (fun _ => True) (bytearray_fromhex s))
    by (intros s; unfold bytearray_fromhex; destruct (fromhex s); auto with emits).
  unfold send_droid_command. auto 6 with emits.
Qed.

Lemma emits_run_actions (l : list Action) :
  emits (fun _ => True) (run_actions MultipurposeCommand env l).
Proof.
  induction l as [|a l IH]; cbn [run_actions]; [apply emits_ret|].
  apply emits_bind; [|intros _; exact IH].
  destruct a; cbn [run_action]; unfold send_droid_multi_command, sleep;
    auto using emits_send_droid_command with emits.
Qed.

(** The polling loop reads the connection status and sleeps; it writes
    nothing. *)
Lemma emits_connect_wait (fuel : nat) :
  forall timeout, emits (fun ev => is_write ev = false) (connect_wait env fuel timeout).
Proof.
  induction fuel as [|fuel IH]; intros timeout; cbn [connect_wait]; [apply emits_ret|].
  apply emits_bind; [apply emits_is_connected; reflexivity|].
  intros connected. destruct (negb connected && _); [|apply emits_ret].
  apply emits_bind; [apply emits_call; reflexivity | intros _; apply IH].
Qed.

(** The polling loop never runs out of its 102 rounds: after 101 additions of
    [.1] the timeout is no longer below 10, so more fuel changes nothing. *)
Lemma connect_wait_rounds (k : nat) :
  forall timeout n m st,
    PrimFloat.ltb (ticks k timeout) (float_of_Z 10) = false ->
    (k < n)%nat -> (k < m)%nat ->
    connect_wait env n timeout st = connect_wait env m timeout st.
Proof.
  induction k as [|k IH]; intros timeout n m st Hk Hn Hm;
    destruct n as [|n]; [lia| |lia|]; (destruct m as [|m]; [lia|]);
    cbn [connect_wait]; unfold bind;
    destruct (droid_is_connected env st) as [[connected|e] st1]; try reflexivity.
  - cbn [ticks] in Hk. rewrite Hk, andb_false_r. reflexivity.
  - destruct (negb connected && _); [|reflexivity].
    destruct (sleep env (PyFloat tenth) st1) as [[u|e] st2]; [|reflexivity].
    apply IH; [exact Hk | lia | lia].
Qed.

Lemma connect_wait_fuel (n : nat) (st : St) :
  (102 <= n)%nat ->
  connect_wait env n (float_of_Z 0) st = connect_wait env 102 (float_of_Z 0) st.
Proof.
  intros Hn. apply (connect_wait_rounds 101); [vm_compute; reflexivity | lia | lia].
Qed.

Lemma call_eq (ev : Event) (st : St) :
  call env ev st =
    (match env_raises env (trace st) ev with None => Ok tt | Some e => Raise e end,
     {| self := self st; trace := trace st ++ [ev] |}).
Proof. unfold call. destruct (env_raises env (trace st) ev); reflexivity. Qed.

Lemma with_droid_some {A : Type} (k : M A) (st : St) (c : Profile) :
  droid (self st) = Some c -> with_droid k st = k st.
Proof. intros H. unfold with_droid, bind, get_self. rewrite H. reflexivity. Qed.

Lemma with_droid_none {A : Type} (k : M A) (st : St) :
  droid (self st) = None -> with_droid k st = (Raise AttributeError, st).
Proof. intros H. unfold with_droid, bind, get_self. rewrite H. reflexivity. Qed.

(** ** Connecting *)

(** What the first part of [connect] leaves behind: the object differs at
    most by its transport, and when the part completes, the trace has grown
    by the opening, the polling and two writes of the connect code. *)
Lemma connect_handshake_inv (st : St) (r : result unit) (st1 : St) :
  connect_handshake env st = (r, st1) ->
  (self st1 = self st \/ self st1 = set_droid (Some (profile (self st))) (self st)) /\
  (forall u, r = Ok u ->
     self st1 = set_droid (Some (profile (self st))) (self st) /\
     exists polls,
       trace st1 =
         trace st ++ [EvClientNew (profile (self st)); EvClientConnect] ++ polls
                  ++ [connect_code_write; connect_code_write] /\
       Forall (fun ev => is_write ev = false) polls).
Proof.
  intros E. unfold connect_handshake in E.
  unfold bind at 1 in E. unfold get_self at 1 in E.
  unfold bind at 1 in E. rewrite call_eq in E.
  destruct (env_raises env (trace st) (EvClientNew (profile (self st)))).
  { inversion E; subst; cbn. split; [left; reflexivity | discriminate]. }
  unfold bind at 1 in E. unfold update_self at 1 in E. cbn [self trace] in E.
  unfold bind at 1 in E.
  rewrite (with_droid_some _ _ (profile (self st))) in E by reflexivity.
  rewrite call_eq in E. cbn [self trace] in E.
  destruct (env_raises env _ EvClientConnect).
  { inversion E; subst; cbn. split; [right; reflexivity | discriminate]. }
  unfold bind at 1 in E.
  match type of E with
  | context [connect_wait env 102 ?t ?s] =>
      destruct (connect_wait env 102 t s) as [[u1|e1] st2] eqn:W;
      apply emits_connect_wait in W as (Hs & polls & Ht & Hall)
  end; cbn [self trace] in Hs, Ht.
  2:{ inversion E; subst. split; [right; exact Hs | discriminate]. }
  unfold bind at 1 in E. cbn [bytearray_fromhex fromhex] in E.
  change (bytearray_fromhex "222001" st2) with (@ret (list Z) [0x22; 0x20; 0x01] st2) in E.
  unfold ret at 1 in E.
  unfold bind at 1 in E. unfold droid_write_gatt_char in E.
  rewrite (with_droid_some _ st2 (profile (self st))) in E by (rewrite Hs; reflexivity).
  rewrite call_eq in E.
  destruct (env_raises env (trace st2) _).
  { inversion E; subst; cbn. split; [right; exact Hs | discriminate]. }
  rewrite (with_droid_some _ _ (profile (self st))) in E by (cbn; rewrite Hs; reflexivity).
  rewrite call_eq in E. cbn [self trace] in E.
  destruct (env_raises env _ _);
    inversion E; subst; cbn [self trace]; (split; [right; exact Hs|]); [discriminate|].
  intros _ _. split; [exact Hs|]. exists polls. split; [|exact Hall].
  rewrite Ht. rewrite <- !app_assoc. reflexivity.
Qed.

(** [connect] is its first part, then the identity and the rest. *)
Lemma connect_eq (silent : bool) (st : St) :
  connect MultipurposeCommand DisneyManufacturerId DroidPairingSequence1 env silent st =
    match connect_handshake env st with
    | (Ok _, st1) =>
        (let* _ := connect_identity DisneyManufacturerId in
         connect_finish MultipurposeCommand DroidPairingSequence1 env silent) st1
    | (Raise e, st1) => (Raise e, st1)
    end.
Proof. reflexivity. Qed.

(** With the transport object in place the polling loop raises only what
    the environment answers to its last sleep. *)
Lemma connect_wait_raise (fuel : nat) :
  forall timeout st c e st',
    droid (self st) = Some c ->
    connect_wait env fuel timeout st = (Raise e, st') ->
    exists evs ev,
      trace st' = trace st ++ evs ++ [ev] /\
      env_raises env (trace st ++ evs) ev = Some e.
Proof.
  induction fuel as [|fuel IH]; intros timeout st c e st' Hd E;
    cbn [connect_wait] in E; [discriminate E|].
  unfold bind at 1 in E. unfold droid_is_connected in E.
  rewrite (with_droid_some _ st c Hd) in E.
  destruct (negb (env_is_connected env (trace st)) && _); [|discriminate E].
  unfold bind at 1 in E. unfold sleep in E. rewrite call_eq in E.
  cbn [self trace] in E.
  destruct (env_raises env (trace st ++ [EvIsConnected (env_is_connected env (trace st))])
              (EvSleep (PyFloat tenth))) as [e0|] eqn:R.
  - inversion E; subst. cbn [trace].
    exists [EvIsConnected (env_is_connected env (trace st))], (EvSleep (PyFloat tenth)).
    split; [rewrite <- app_assoc; reflexivity | exact R].
  - apply (IH _ _ c) in E as (evs & ev & Ht & Hr); [|exact Hd]. cbn [trace] in Ht, Hr.
    exists ([EvIsConnected (env_is_connected env (trace st)); EvSleep (PyFloat tenth)] ++ evs), ev.
    split; [rewrite Ht; rewrite <- !app_assoc; reflexivity|].
    rewrite <- Hr. f_equal. rewrite <- !app_assoc. reflexivity.
Qed.

(** The first part of [connect] raises only what the environment answers to
    the last call it made: the opening, a sleep of the polling, or one of
    the two writes. *)
Lemma connect_handshake_raise (st : St) (e : exn) (st1 : St) :
  connect_handshake env st = (Raise e, st1) ->
  exists evs ev,
    trace st1 = trace st ++ evs ++ [ev] /\
    env_raises env (trace st ++ evs) ev = Some e.
Proof.
  intros E. unfold connect_handshake in E.
  unfold bind at 1 in E. unfold get_self at 1 in E.
  unfold bind at 1 in E. rewrite call_eq in E.
  destruct (env_raises env (trace st) (EvClientNew (profile (self st)))) eqn:R1.
  { inversion E; subst; cbn [trace]. exists [], (EvClientNew (profile (self st))).
    rewrite app_nil_r. split; [reflexivity | exact R1]. }
  unfold bind at 1 in E. unfold update_self at 1 in E. cbn [self trace] in E.
  unfold bind at 1 in E.
  rewrite (with_droid_some _ _ (profile (self st))) in E by reflexivity.
  rewrite call_eq in E. cbn [self trace] in E.
  destruct (env_raises env _ EvClientConnect) eqn:R2.
  { inversion E; subst; cbn [trace].
    exists [EvClientNew (profile (self st))], EvClientConnect.
    split; [rewrite <- app_assoc; reflexivity | exact R2]. }
  unfold bind at 1 in E.
  match type of E with
  | context [connect_wait env 102 ?t ?s] =>
      destruct (connect_wait env 102 t s) as [[u1|e1] st2] eqn:W
  end.
  2:{ inversion E; subst.
      apply (connect_wait_raise _ _ _ (profile (self st))) in W
        as (evs & ev & Ht & Hr); [|reflexivity]. cbn [trace] in Ht, Hr.
      exists ([EvClientNew (profile (self st)); EvClientConnect] ++ evs), ev.
      split; [rewrite Ht; rewrite <- !app_assoc; reflexivity|].
      rewrite <- Hr. f_equal. rewrite <- !app_assoc. reflexivity. }
  apply emits_connect_wait in W as (Hs & polls & Ht & Hall). cbn [self trace] in Hs, Ht.
  unfold bind at 1 in E.
  change (bytearray_fromhex "222001" st2) with (@ret (list Z) [0x22; 0x20; 0x01] st2) in E.
  unfold ret at 1 in E.
  unfold bind at 1 in E. unfold droid_write_gatt_char in E.
  rewrite (with_droid_some _ st2 (profile (self st))) in E by (rewrite Hs; reflexivity).
  rewrite call_eq in E.
  destruct (env_raises env (trace st2) _) eqn:R3.
  { inversion E; subst; cbn [trace].
    exists ([EvClientNew (profile (self st)); EvClientConnect] ++ polls), connect_code_write.
    rewrite Ht in *. split; [rewrite <- !app_assoc; reflexivity|].
    rewrite <- R3. f_equal. rewrite <- !app_assoc. reflexivity. }
  rewrite (with_droid_some _ _ (profile (self st))) in E by (cbn; rewrite Hs; reflexivity).
  rewrite call_eq in E. cbn [self trace] in E.
  destruct (env_raises env (trace st2 ++ _) _) eqn:R4; [|discriminate E].
  inversion E; subst; cbn [trace].
  exists ([EvClientNew (profile (self st)); EvClientConnect] ++ polls ++ [connect_code_write]),
    connect_code_write.
  rewrite Ht in *. split; [rewrite <- !app_assoc; reflexivity|].
  rewrite <- R4. f_equal. rewrite <- !app_assoc. reflexivity.
Qed.

(** C8. The first part of [connect] opens the transport, polls it, and
    writes the connect code [22 20 01] on handle [0x000d] exactly twice;
    the identity is derived after that, in the state this leaves. When no
    call raises, this is what happens: the first part returns with the two
    writes at the end of the trace and [connect] goes on to the identity.
    It raises only what the environment answered to the last call it made
    (the opening, a sleep of the polling or a write); [connect] then raises
    the same and the identity is left alone. *)
Theorem connect_handshake_twice (silent : bool) (st : St) :
  match connect_handshake env st with
  | (Ok _, st1) =>
      (exists polls,
         trace st1 =
           trace st ++ [EvClientNew (profile (self st)); EvClientConnect] ++ polls
                    ++ [connect_code_write; connect_code_write] /\
         Forall (fun ev => is_write ev = false) polls) /\
      self st1 = set_droid (Some (profile (self st))) (self st) /\
      connect MultipurposeCommand DisneyManufacturerId DroidPairingSequence1 env silent st =
        (let* _ := connect_identity DisneyManufacturerId in
         connect_finish MultipurposeCommand DroidPairingSequence1 env silent) st1
  | (Raise e, st1) =>
      connect MultipurposeCommand DisneyManufacturerId DroidPairingSequence1 env silent st =
        (Raise e, st1) /\
      personality_id (self st1) = personality_id (self st) /\
      affilliation_id (self st1) = affilliation_id (self st) /\
      exists evs ev,
        trace st1 = trace st ++ evs ++ [ev] /\
        env_raises env (trace st ++ evs) ev = Some e
  end /\
  ((forall history ev, env_raises env history ev = None) ->
   exists polls,
     connect_handshake env st =
       (Ok tt,
        {| self := set_droid (Some (profile (self st))) (self st);
           trace := trace st ++ [EvClientNew (profile (self st)); EvClientConnect] ++ polls
                      ++ [connect_code_write; connect_code_write] |}) /\
     Forall (fun ev => is_write ev = false) polls).
Proof.
  rewrite connect_eq.
  destruct (connect_handshake env st) as [[u|e] st1] eqn:E.
  - destruct (connect_handshake_inv _ _ _ E) as [_ H].
    destruct (H u eq_refl) as (Hs & polls & Ht & Hall).
    split.
    + split; [exists polls; split; assumption|]. split; [exact Hs | reflexivity].
    + intros _. exists polls. split; [|exact Hall].
      destruct u, st1 as [s1 t1]. cbn [self trace] in Hs, Ht. rewrite Hs, Ht. reflexivity.
  - destruct (connect_handshake_raise _ _ _ E) as (evs & ev & Ht & Hr).
    split.
    + split; [reflexivity|].
      destruct (connect_handshake_inv _ _ _ E) as [[Hs|Hs] _];
        rewrite Hs; (split; [reflexivity|]); (split; [reflexivity|]);
        exists evs, ev; split; assumption.
    + intros Hquiet. rewrite Hquiet in Hr. discriminate Hr.
Qed.

(** Indexing from the end of a buffer of at least two bytes. *)
Lemma py_getitem_last (pre : list Z) (b2 b1 : Z) :
  py_getitem (pre ++ [b2; b1]) (Z.of_nat (length (pre ++ [b2; b1])) - 1) = Ok b1.
Proof.
  unfold py_getitem. rewrite length_app. cbn [length].
  replace (_ && _) with true
    by (symmetry; apply andb_true_intro; split; [apply Z.leb_le | apply Z.ltb_lt]; lia).
  replace (Z.to_nat _) with (length pre + 1)%nat by lia.
  rewrite app_nth2 by lia. replace (_ - _)%nat with 1%nat by lia. reflexivity.
Qed.

Lemma py_getitem_second_last (pre : list Z) (b2 b1 : Z) :
  py_getitem (pre ++ [b2; b1]) (Z.of_nat (length (pre ++ [b2; b1])) - 2) = Ok b2.
Proof.
  unfold py_getitem. rewrite length_app. cbn [length].
  replace (_ && _) with true
    by (symmetry; apply andb_true_intro; split; [apply Z.leb_le | apply Z.ltb_lt]; lia).
  replace (Z.to_nat _) with (length pre + 0)%nat by lia.
  rewrite app_nth2 by lia. replace (_ - _)%nat with 0%nat by lia. reflexivity.
Qed.

Lemma two_last_bytes (l : list Z) :
  (2 <= length l)%nat -> exists pre b2 b1, l = pre ++ [b2; b1].
Proof.
  induction l as [|a l IH]; cbn [length]; intros Hl; [lia|].
  destruct l as [|b l']; cbn [length] in *; [lia|].
  destruct l' as [|c l''].
  - exists [], a, b. reflexivity.
  - destruct IH as (pre & b2 & b1 & Hpre); [cbn [length]; lia|].
    exists (a :: pre), b2, b1. rewrite Hpre. reflexivity.
Qed.

(** The identity part of [connect] on a buffer of at least two bytes. *)
Lemma connect_identity_two_bytes (st : St) (pre : list Z) (b2 b1 : Z) :
  manufacturer_data (self st) !! DisneyManufacturerId = Some (pre ++ [b2; b1]) ->
  connect_identity DisneyManufacturerId st =
    (Ok tt,
     {| self := set_affilliation_id (PyFloat (int_truediv (b2 - 0x80) 2))
                  (set_personality_id b1 (self st));
        trace := trace st |}).
Proof.
  intros Hmd. unfold connect_identity, bind, get_self. rewrite Hmd.
  unfold lift. rewrite py_getitem_last. unfold update_self at 1. cbn [self trace].
  rewrite py_getitem_second_last. reflexivity.
Qed.

(** The last part of [connect] leaves the identity and the manufacturer
    data as they are. *)
Lemma connect_finish_identity (silent : bool) (st : St) (r : result unit) (st' : St) :
  connect_finish MultipurposeCommand DroidPairingSequence1 env silent st = (r, st') ->
  personality_id (self st') = personality_id (self st) /\
  affilliation_id (self st') = affilliation_id (self st).
Proof.
  unfold connect_finish. unfold bind at 1.
  match goal with
  | |- context [(if negb silent then ?a else ?b) st] =>
      assert (Hcue : emits (fun _ => True) (if negb silent then a else b));
      [destruct silent; cbn [negb]; [apply emits_ret|];
       apply emits_bind; [apply emits_run_actions | intros _; apply emits_call; exact I]
      | destruct ((if negb silent then a else b) st) as [[u|e] st1] eqn:C]
  end; apply Hcue in C as (Hs & _).
  - unfold bind, update_self, get_self. cbn [self trace].
    destruct (heartbeat_loop _); intros E; inversion E; subst; cbn; rewrite Hs; split; reflexivity.
  - intros E; inversion E; subst. rewrite Hs. split; reflexivity.
Qed.

(** C4. On a buffer of at least two bytes the identity is read from its
    end: [personality_id] is the last byte, [affilliation_id] is the byte
    before it minus [0x80], over 2. [connect], when it returns, leaves these
    two values in the object. A buffer that ends in [0x80, 0x07] gives
    affiliation 0 and personality 7. *)
Theorem connect_identity_fields (st : St) (droid_data : list Z) :
  manufacturer_data (self st) !! DisneyManufacturerId = Some droid_data ->
  (2 <= length droid_data)%nat ->
  exists pre b2 b1,
    droid_data = pre ++ [b2; b1] /\
    connect_identity DisneyManufacturerId st =
      (Ok tt,
       {| self := set_affilliation_id (PyFloat (int_truediv (b2 - 0x80) 2))
                    (set_personality_id b1 (self st));
          trace := trace st |}) /\
    (forall silent st',
       connect MultipurposeCommand DisneyManufacturerId DroidPairingSequence1 env silent st
         = (Ok tt, st') ->
       personality_id (self st') = b1 /\
       affilliation_id (self st') = PyFloat (int_truediv (b2 - 0x80) 2) /\
       (b2 = 0x80 -> b1 = 0x07 ->
        personality_id (self st') = 7 /\
        affilliation_id (self st') = PyFloat 0 /\
        pynum_eqb (affilliation_id (self st')) (PyInt 0) = true)).
Proof.
  intros Hmd Hlen. destruct (two_last_bytes droid_data Hlen) as (pre & b2 & b1 & ->).
  exists pre, b2, b1. split; [reflexivity|].
  split; [apply (connect_identity_two_bytes st pre b2 b1); exact Hmd|].
  intros silent st' Hc. rewrite connect_eq in Hc.
  destruct (connect_handshake env st) as [[u|e] st1] eqn:E; [|discriminate Hc].
  destruct (connect_handshake_inv _ _ _ E) as [_ H].
  destruct (H u eq_refl) as [Hs _]. unfold bind at 1 in Hc.
  rewrite (connect_identity_two_bytes st1 pre b2 b1) in Hc by (rewrite Hs; exact Hmd).
  apply connect_finish_identity in Hc as [Hp Ha]. cbn [self personality_id affilliation_id
    set_affilliation_id set_personality_id] in Hp, Ha.
  assert (Hgen : personality_id (self st') = b1 /\
                 affilliation_id (self st') = PyFloat (int_truediv (b2 - 0x80) 2))
    by (split; assumption).
  destruct Hgen as [Hp' Ha']. split; [exact Hp'|]. split; [exact Ha'|].
  intros -> ->. rewrite Hp', Ha'. repeat split; reflexivity.
Qed.

(** C3, as the code has it. With an empty buffer [connect] never returns:
    it raises, [IndexError] once the handshake is through, and leaves the
    identity and the heartbeat as they were. *)
Theorem connect_empty_vendor_data (silent : bool) (st : St) :
  manufacturer_data (self st) !! DisneyManufacturerId = Some [] ->
  exists e st',
    connect MultipurposeCommand DisneyManufacturerId DroidPairingSequence1 env silent st
      = (Raise e, st') /\
    (forall u, fst (connect_handshake env st) = Ok u -> e = IndexError) /\
    personality_id (self st') = personality_id (self st) /\
    affilliation_id (self st') = affilliation_id (self st) /\
    heartbeat_thread (self st') = heartbeat_thread (self st) /\
    heartbeat_loop (self st') = heartbeat_loop (self st).
Proof.
  intros Hmd. rewrite connect_eq.
  destruct (connect_handshake env st) as [[u|e] st1] eqn:E.
  - destruct (connect_handshake_inv _ _ _ E) as [_ H].
    destruct (H u eq_refl) as [Hs _]. exists IndexError, st1.
    split.
    + unfold bind at 1. unfold connect_identity, bind, get_self.
      rewrite Hs. cbn [manufacturer_data set_droid]. rewrite Hmd. reflexivity.
    + rewrite Hs. repeat split; reflexivity.
  - exists e, st1. split; [reflexivity|]. split; [cbn; discriminate|].
    destruct (connect_handshake_inv _ _ _ E) as [[Hs|Hs] _]; rewrite Hs;
      repeat split; reflexivity.
Qed.

(** ** Disconnecting *)

Lemma emits_disconnect_cue (silent : bool) :
  emits (fun _ => True) (disconnect_cue MultipurposeCommand play_shutdown_audio env silent).
Proof.
  unfold disconnect_cue, sleep. destruct silent; cbn [negb];
    auto using emits_run_actions with emits.
Qed.

(** The [finally] block on a session that has its transport: the close is
    called, and its outcome is the outcome of the block. *)
Lemma disconnect_close_some (st : St) (c : Profile) :
  droid (self st) = Some c ->
  exists st',
    disconnect_close env st =
      (match env_raises env (trace st) EvClientDisconnect with
       | None => Ok tt
       | Some e => Raise e
       end, st') /\
    trace st' = trace st ++ [EvClientDisconnect] /\
    droid (self st') = Some c.
Proof.
  intros Hd. unfold disconnect_close, droid_disconnect. unfold bind at 1.
  rewrite (with_droid_some _ st c Hd), call_eq.
  destruct (env_raises env (trace st) EvClientDisconnect).
  - eexists. split; [reflexivity|]. split; [reflexivity | exact Hd].
  - unfold bind, get_self, update_self, ret. cbn [self trace].
    destruct (heartbeat_loop (self st)); eexists;
      (split; [reflexivity|]); (split; [reflexivity | exact Hd]).
Qed.

(** [disconnect] on a session that has its transport, in full: the cue
    runs first and leaves the object alone, the close follows, and the
    outcome is that of the cue unless the close itself raises. *)
Lemma disconnect_outcome (silent : bool) (st : St) (c : Profile) :
  droid (self st) = Some c ->
  exists r_cue st_cue st',
    disconnect_cue MultipurposeCommand play_shutdown_audio env silent st = (r_cue, st_cue) /\
    disconnect MultipurposeCommand play_shutdown_audio env silent st =
      (match env_raises env (trace st_cue) EvClientDisconnect with
       | None => r_cue
       | Some e => Raise e
       end, st') /\
    (exists evs, trace st_cue = trace st ++ evs) /\
    trace st' = trace st_cue ++ [EvClientDisconnect] /\
    droid (self st') = Some c.
Proof.
  intros Hd. unfold disconnect, try_finally.
  destruct (disconnect_cue MultipurposeCommand play_shutdown_audio env silent st)
    as [r_cue st_cue] eqn:C.
  destruct (emits_disconnect_cue silent _ _ _ C) as (Hs & evs & Ht & _).
  destruct (disconnect_close_some st_cue c) as (st' & Hc & Ht' & Hd');
    [rewrite Hs; exact Hd|].
  rewrite Hc. exists r_cue, st_cue, st'.
  split; [reflexivity|].
  split; [destruct (env_raises env (trace st_cue) EvClientDisconnect); reflexivity|].
  split; [exists evs; exact Ht|]. split; [exact Ht' | exact Hd'].
Qed.

(** C6. On a session that has its transport, [disconnect] always calls the
    transport's close: it is the last interaction of the call and comes
    right after those of the shutdown cue and the settle delay, whatever
    these did, raising included. When the close returns, what [disconnect]
    returns or raises is what the cue did. *)
Theorem disconnect_always_closes (silent : bool) (st : St) (c : Profile) :
  droid (self st) = Some c ->
  exists evs,
    trace (snd (disconnect_cue MultipurposeCommand play_shutdown_audio env silent st)) =
      trace st ++ evs /\
    trace (snd (disconnect MultipurposeCommand play_shutdown_audio env silent st)) =
      trace st ++ evs ++ [EvClientDisconnect] /\
    (env_raises env (trace st ++ evs) EvClientDisconnect = None ->
     fst (disconnect MultipurposeCommand play_shutdown_audio env silent st) =
     fst (disconnect_cue MultipurposeCommand play_shutdown_audio env silent st)).
Proof.
  intros Hd.
  destruct (disconnect_outcome silent st c Hd)
    as (r_cue & st_cue & st' & C & E & (evs & Ht) & Ht' & _).
  exists evs. rewrite C, E. cbn [fst snd].
  split; [exact Ht|]. split; [rewrite Ht', Ht, app_assoc; reflexivity|].
  rewrite <- Ht. intros ->. reflexivity.
Qed.

(** C7, as the code has it. On a session that has its transport, a second
    [disconnect] does not raise when its own shutdown cue and settle delay
    (there are none with [silent] set) and the transport's close return. *)
Theorem disconnect_again (silent1 silent2 : bool) (st : St) (c : Profile) :
  droid (self st) = Some c ->
  fst (disconnect_cue MultipurposeCommand play_shutdown_audio env silent2
         (snd (disconnect MultipurposeCommand play_shutdown_audio env silent1 st))) = Ok tt ->
  env_raises env
    (trace (snd (disconnect_cue MultipurposeCommand play_shutdown_audio env silent2
                   (snd (disconnect MultipurposeCommand play_shutdown_audio env silent1 st)))))
    EvClientDisconnect = None ->
  fst (disconnect MultipurposeCommand play_shutdown_audio env silent2
         (snd (disconnect MultipurposeCommand play_shutdown_audio env silent1 st))) = Ok tt.
Proof.
  intros Hd.
  destruct (disconnect_outcome silent1 st c Hd)
    as (r_cue & st_cue & st1 & _ & E1 & _ & _ & Hd1).
  rewrite E1. cbn [snd]. intros Hcue Hclose.
  destruct (disconnect_outcome silent2 st1 c Hd1)
    as (r_cue2 & st_cue2 & st2 & C2 & E2 & _).
  rewrite C2 in Hcue, Hclose. cbn [fst snd] in Hcue, Hclose.
  rewrite E2. cbn [fst]. rewrite Hclose. exact Hcue.
Qed.

(** ** The keep-alive task *)

Lemma build_heartbeat_frame :
  is_byte FlashPairingLed = true ->
  build_droid_command FlashPairingLed "020001ff01ff0aff00" = Ok (heartbeat_frame FlashPairingLed).
Proof.
  intros Hb. unfold build_droid_command, bytearray_of_ints.
  change (len "020001ff01ff0aff00" / 2) with 9. cbn [forallb].
  rewrite Hb. destruct (FlashPairingLed =? 15) eqn:E; unfold heartbeat_frame; rewrite E;
    reflexivity.
Qed.

Lemma heartbeat_frame_bytes :
  is_byte FlashPairingLed = true -> forallb is_byte (heartbeat_frame FlashPairingLed) = true.
Proof.
  intros Hb. unfold heartbeat_frame. cbn [forallb]. rewrite Hb.
  destruct (FlashPairingLed =? 15); reflexivity.
Qed.

(** One round of the heartbeat, case by case. *)
Lemma heartbeat_round_cases (st : St) (r : result bool) (st' : St) :
  is_byte FlashPairingLed = true ->
  heartbeat_round FlashPairingLed env st = (r, st') ->
  (r = Ok true /\ trace st' = trace st ++ heartbeat_beat FlashPairingLed) \/
  (r = Ok false /\ trace st' = trace st ++ [EvIsConnected false]) \/
  (exists e, r = Raise e /\
     (trace st' = trace st \/
      trace st' = trace st ++ [EvIsConnected true;
                               EvWrite 0x000d (heartbeat_frame FlashPairingLed) None] \/
      trace st' = trace st ++ heartbeat_beat FlashPairingLed)).
Proof.
  intros Hb E. unfold heartbeat_round in E. unfold bind at 1 in E.
  unfold droid_is_connected in E.
  destruct (droid (self st)) as [c|] eqn:Hd.
  2:{ rewrite (with_droid_none _ st Hd) in E. inversion E; subst.
      right; right. exists AttributeError. split; [reflexivity | left; reflexivity]. }
  rewrite (with_droid_some _ st c Hd) in E.
  destruct (env_is_connected env (trace st)).
  2:{ inversion E; subst. right; left. split; reflexivity. }
  unfold bind at 1 in E. unfold send_droid_command in E. unfold bind at 1 in E.
  unfold lift in E. rewrite (build_heartbeat_frame Hb) in E.
  rewrite (with_droid_some _ _ c) in E by exact Hd.
  unfold bind at 1 in E. unfold bytearray_fromhex in E.
  rewrite (fromhex_hex _ (heartbeat_frame_bytes Hb)) in E. unfold ret at 1 in E.
  rewrite call_eq in E. cbn [self trace] in E.
  destruct (env_raises env _ (EvWrite _ _ _)).
  { inversion E; subst. right; right. eexists. split; [reflexivity|].
    right; left. cbn [trace]. rewrite <- app_assoc. reflexivity. }
  unfold bind at 1 in E. unfold sleep in E. rewrite call_eq in E. cbn [self trace] in E.
  destruct (env_raises env _ (EvSleep _)); inversion E; subst; cbn [trace];
    rewrite <- !app_assoc.
  - right; right. eexists. split; [reflexivity|]. right; right. reflexivity.
  - left. split; reflexivity.
Qed.

Lemma concat_repeat_snoc {A : Type} (x : list A) (n : nat) :
  concat (repeat x n) ++ x = concat (repeat x (S n)).
Proof.
  induction n as [|n IH]; cbn [repeat concat].
  - rewrite app_nil_r. reflexivity.
  - rewrite <- app_assoc, IH. reflexivity.
Qed.

(** With the transport object in place and a command id that is a byte,
    the round of the code is the period of the specification. *)
Lemma heartbeat_next_round (st : St) (c : Profile) :
  is_byte FlashPairingLed = true ->
  droid (self st) = Some c ->
  heartbeat_next FlashPairingLed env (Running st) = keep_alive_round FlashPairingLed env st.
Proof.
  intros Hb Hd. unfold heartbeat_next, keep_alive_round, heartbeat_round.
  unfold bind at 1. unfold droid_is_connected. rewrite (with_droid_some _ st c Hd).
  destruct (env_is_connected env (trace st)); [|reflexivity].
  unfold bind at 1. unfold send_droid_command. unfold bind at 1.
  unfold lift. rewrite (build_heartbeat_frame Hb).
  rewrite (with_droid_some _ _ c) by exact Hd.
  unfold bind at 1. unfold bytearray_fromhex.
  rewrite (fromhex_hex _ (heartbeat_frame_bytes Hb)). unfold ret at 1.
  rewrite call_eq. cbn [self trace].
  destruct (env_raises env _ (EvWrite _ _ _)).
  { rewrite <- app_assoc. reflexivity. }
  unfold bind, sleep. rewrite call_eq. cbn [self trace].
  unfold heartbeat_beat. rewrite <- !app_assoc. cbn [app].
  destruct (env_raises env _ (EvSleep _)); reflexivity.
Qed.

Lemma keep_alive_round_self (st : St) :
  self (task_state (keep_alive_round FlashPairingLed env st)) = self st.
Proof.
  unfold keep_alive_round. destruct (env_is_connected env (trace st)); [|reflexivity].
  destruct (env_raises env _ _); [reflexivity|].
  destruct (env_raises env _ _); reflexivity.
Qed.

(** The step relation is the function [heartbeat_next]: a running task
    always takes its step, and [heartbeat_run] follows the relation. *)
Lemma heartbeat_step_next (st : St) :
  heartbeat_step FlashPairingLed env (Running st) (heartbeat_next FlashPairingLed env (Running st)).
Proof.
  cbn [heartbeat_next].
  destruct (heartbeat_round FlashPairingLed env st) as [[[|]|e] st'] eqn:E;
    constructor; exact E.
Qed.

Lemma heartbeat_steps_trans (t1 t2 t3 : Task) :
  heartbeat_steps FlashPairingLed env t1 t2 ->
  heartbeat_steps FlashPairingLed env t2 t3 ->
  heartbeat_steps FlashPairingLed env t1 t3.
Proof.
  intros H12 H23. induction H23 as [t|ta tb tc Hab IH Hbc]; [exact H12|].
  eapply heartbeat_steps_step; [apply IH; exact H12 | exact Hbc].
Qed.

Lemma heartbeat_run_steps (n : nat) :
  forall t, heartbeat_steps FlashPairingLed env t (heartbeat_run FlashPairingLed env n t).
Proof.
  induction n as [|n IH]; intros t; cbn [heartbeat_run]; [constructor|].
  eapply heartbeat_steps_trans; [|apply IH].
  destruct t as [st|st|e st]; try (cbn [heartbeat_next]; constructor).
  eapply heartbeat_steps_step; [constructor | apply heartbeat_step_next].
Qed.

(** A step of a running task is the step of [heartbeat_next], and no other. *)
Lemma heartbeat_step_unique (st : St) (t' : Task) :
  heartbeat_step FlashPairingLed env (Running st) t' ->
  t' = heartbeat_next FlashPairingLed env (Running st).
Proof.
  intros H. cbn [heartbeat_next]. inversion H as [s s' E|s s' E|s e s' E]; subst;
    rewrite E; reflexivity.
Qed.

(** The task leaves the object as it is. *)
Lemma heartbeat_steps_self (st : St) (c : Profile) (t : Task) :
  is_byte FlashPairingLed = true ->
  droid (self st) = Some c ->
  heartbeat_steps FlashPairingLed env (Running st) t ->
  self (task_state t) = self st.
Proof.
  intros Hb Hd H. remember (Running st) as t0 eqn:Ht0.
  induction H as [t|t1 t2 t3 H12 IH H23]; subst; [reflexivity|].
  specialize (IH eq_refl).
  assert (Hrun : exists st2, t2 = Running st2)
    by (inversion H23; subst; eexists; reflexivity).
  destruct Hrun as [st2 ->]. cbn [task_state] in IH.
  rewrite (heartbeat_step_unique _ _ H23), (heartbeat_next_round st2 c Hb)
    by (rewrite IH; exact Hd).
  rewrite keep_alive_round_self. exact IH.
Qed.

(** C9. The keep-alive task, as a step relation. While it runs, its next
    step is the period of the specification and no other: when the
    transport reports itself connected the heartbeat frame is written on
    handle [0x000d] and ten seconds pass before the next test, and when it
    reports itself disconnected the task finishes with nothing sent. So,
    however long the task has run, its interactions are a number of full
    rounds, each made of a report that the transport is connected, one
    write of the frame and a sleep of 10, followed by nothing while it
    runs, by the report that the transport is disconnected once it has
    finished, and by a broken round when a call raised. A task that has
    finished or failed takes no further step, so it sends nothing more. *)
Theorem keep_alive_trace (st : St) (t : Task) :
  is_byte FlashPairingLed = true ->
  heartbeat_steps FlashPairingLed env (Running st) t ->
  (exists n tail,
     trace (task_state t) =
       trace st ++ concat (repeat (heartbeat_beat FlashPairingLed) n) ++ tail /\
     match t with
     | Running _ => tail = []
     | Finished _ => tail = [EvIsConnected false]
     | Failed _ _ =>
         tail = [] \/
         tail = [EvIsConnected true; EvWrite 0x000d (heartbeat_frame FlashPairingLed) None] \/
         tail = heartbeat_beat FlashPairingLed
     end) /\
  (forall t', heartbeat_step FlashPairingLed env t t' -> exists st1, t = Running st1) /\
  (forall c, droid (self st) = Some c ->
     self (task_state t) = self st /\
     forall st1, t = Running st1 ->
       forall t', heartbeat_step FlashPairingLed env t t' <->
                  t' = keep_alive_round FlashPairingLed env st1).
Proof.
  intros Hb H. split; [|split].
  2:{ intros t' Hstep. inversion Hstep; subst; eexists; reflexivity. }
  2:{ intros c Hd. pose proof (heartbeat_steps_self st c t Hb Hd H) as Hs.
      split; [exact Hs|]. intros st1 -> t'. cbn [task_state] in Hs.
      rewrite <- (heartbeat_next_round st1 c Hb) by (rewrite Hs; exact Hd).
      split; [apply heartbeat_step_unique|]. intros ->. apply heartbeat_step_next. }
  remember (Running st) as t0 eqn:Ht0. induction H as [t|t1 t2 t3 H12 IH H23]; subst.
  - exists 0%nat, []. cbn. rewrite app_nil_r. split; reflexivity.
  - destruct (IH eq_refl) as (n & tail & Ht & Htail).
    inversion H23 as [st2 st3 E|st2 st3 E|st2 e st3 E]; subst; cbn [task_state] in *;
      subst tail; rewrite app_nil_r in Ht;
      destruct (heartbeat_round_cases _ _ _ Hb E)
        as [[Hr Htr]|[[Hr Htr]|(e' & Hr & [Htr|[Htr|Htr]])]];
      try discriminate Hr; rewrite Htr, Ht.
    + exists (S n), []. rewrite app_nil_r, <- concat_repeat_snoc, <- app_assoc.
      split; reflexivity.
    + exists n, [EvIsConnected false]. rewrite <- app_assoc. split; reflexivity.
    + exists n, []. rewrite app_nil_r. split; [reflexivity | left; reflexivity].
    + exists n. eexists. rewrite <- app_assoc. split; [reflexivity | right; left; reflexivity].
    + exists n. eexists. rewrite <- app_assoc. split; [reflexivity | right; right; reflexivity].
Qed.

End SessionProperties.

(** ** Discovery *)


(** ** Instances on the sample worlds *)

Lemma connect_identity_fields_witness :
  exists pre b2 b1,
    sample_droid_data = pre ++ [b2; b1] /\
    connect_identity 0x0183 (new_session sample_droid_data) =
      (Ok tt,
       {| self := set_affilliation_id (PyFloat (int_truediv (b2 - 0x80) 2))
                    (set_personality_id b1 (self (new_session sample_droid_data)));
          trace := trace (new_session sample_droid_data) |}) /\
    (forall silent st',
       connect 15 0x0183 [] quiet_env silent (new_session sample_droid_data)
         = (Ok tt, st') ->
       personality_id (self st') = b1 /\
       affilliation_id (self st') = PyFloat (int_truediv (b2 - 0x80) 2) /\
       (b2 = 0x80 -> b1 = 0x07 ->
        personality_id (self st') = 7 /\
        affilliation_id (self st') = PyFloat 0 /\
        pynum_eqb (affilliation_id (self st')) (PyInt 0) = true)).
Proof.
  apply (connect_identity_fields 15 0x0183 [] quiet_env
           (new_session sample_droid_data) sample_droid_data);
    [reflexivity | cbn; lia].
Defined.

Lemma connect_empty_vendor_data_witness :
  exists e st',
    connect 15 0x0183 [] quiet_env true (new_session []) = (Raise e, st') /\
    (forall u, fst (connect_handshake quiet_env (new_session [])) = Ok u -> e = IndexError) /\
    personality_id (self st') = personality_id (self (new_session [])) /\
    affilliation_id (self st') = affilliation_id (self (new_session [])) /\
    heartbeat_thread (self st') = heartbeat_thread (self (new_session [])) /\
    heartbeat_loop (self st') = heartbeat_loop (self (new_session [])).
Proof.
  apply (connect_empty_vendor_data 15 0x0183 [] quiet_env true (new_session [])).
  reflexivity.
Defined.

(** C3, as the claim has it, fails on a buffer of one byte: the index [-1]
    reads that byte again, [connect] returns, and both identity values are
    set from it. *)
Lemma connect_one_byte_vendor_data :
  fst (connect 15 0x0183 [] quiet_env true (new_session [0x07])) = Ok tt /\
  personality_id (self (snd (connect 15 0x0183 [] quiet_env true (new_session [0x07])))) = 7 /\
  affilliation_id (self (snd (connect 15 0x0183 [] quiet_env true (new_session [0x07]))))
    = PyFloat (-60.5).
Proof. repeat split; vm_compute; reflexivity. Qed.

Lemma disconnect_always_closes_witness :
  exists evs,
    trace (snd (disconnect_cue 15 failing_cue quiet_env false
                  (opened_session sample_droid_data))) =
      trace (opened_session sample_droid_data) ++ evs /\
    trace (snd (disconnect 15 failing_cue quiet_env false
                  (opened_session sample_droid_data))) =
      trace (opened_session sample_droid_data) ++ evs ++ [EvClientDisconnect] /\
    (env_raises quiet_env (trace (opened_session sample_droid_data) ++ evs)
       EvClientDisconnect = None ->
     fst (disconnect 15 failing_cue quiet_env false (opened_session sample_droid_data)) =
     fst (disconnect_cue 15 failing_cue quiet_env false (opened_session sample_droid_data))).
Proof.
  apply (disconnect_always_closes 15 failing_cue quiet_env false
           (opened_session sample_droid_data) (ProfileUUID "droid")).
  reflexivity.
Defined.

(** The cue fails after its first command; the transport is closed all the
    same, the loop of the heartbeat is stopped, and the failure of the cue
    is what [disconnect] raises. *)
Example disconnect_failing_cue :
  fst (disconnect 15 failing_cue quiet_env false (opened_session sample_droid_data)) =
    Raise (ExternalError "audio") /\
  trace (snd (disconnect 15 failing_cue quiet_env false (opened_session sample_droid_data))) =
    [EvWrite 0x000d [0x26; 0x42; 15; 0x43; 0x44; 0x01; 0x00] None; EvClientDisconnect] /\
  heartbeat_loop
    (self (snd (disconnect 15 failing_cue quiet_env false (opened_session sample_droid_data)))) =
    Some {| loop_stopped := true; loop_coroutines := 0 |}.
Proof. repeat split; vm_compute; reflexivity. Qed.

Lemma disconnect_again_witness :
  fst (disconnect 15 failing_cue quiet_env true
         (snd (disconnect 15 failing_cue quiet_env false (opened_session sample_droid_data))))
    = Ok tt.
Proof.
  apply (disconnect_again 15 failing_cue quiet_env false true
           (opened_session sample_droid_data) (ProfileUUID "droid"));
    reflexivity.
Defined.

(** C7, as the claim has it, fails on a session that was never connected:
    [self.droid] is [None], and the first and the second [disconnect] both
    raise [AttributeError]. *)
Lemma disconnect_twice_never_connected :
  fst (disconnect 15 [] quiet_env true (new_session sample_droid_data))
    = Raise AttributeError /\
  fst (disconnect 15 [] quiet_env true
         (snd (disconnect 15 [] quiet_env true (new_session sample_droid_data))))
    = Raise AttributeError.
Proof. split; reflexivity. Qed.

Lemma connect_handshake_twice_witness :
  exists polls,
    connect_handshake quiet_env (new_session sample_droid_data) =
      (Ok tt,
       {| self := set_droid (Some (profile (self (new_session sample_droid_data))))
                    (self (new_session sample_droid_data));
          trace := trace (new_session sample_droid_data)
                     ++ [EvClientNew (profile (self (new_session sample_droid_data)));
                         EvClientConnect] ++ polls
                     ++ [connect_code_write; connect_code_write] |}) /\
    Forall (fun ev => is_write ev = false) polls.
Proof.
  apply (proj2 (connect_handshake_twice 15 0x0183 short_cue quiet_env false
                  (new_session sample_droid_data))).
  intros history ev. reflexivity.
Defined.

(** On a transport that connects at once the first part of [connect] makes
    five interactions, the last two being the writes of the connect code. *)
Example connect_handshake_quiet :
  fst (connect_handshake quiet_env (new_session sample_droid_data)) = Ok tt /\
  trace (snd (connect_handshake quiet_env (new_session sample_droid_data))) =
    [EvClientNew (ProfileUUID "droid"); EvClientConnect; EvIsConnected true;
     connect_code_write; connect_code_write].
Proof. split; vm_compute; reflexivity. Qed.

(** On the sample world the first period sends the frame, and so does the
    second; the third finds the transport disconnected and sends nothing. *)
Example keep_alive_round_fading :
  match keep_alive_round 2 fading_env (opened_session sample_droid_data) with
  | Running st1 =>
      trace st1 = [EvIsConnected true; EvWrite 0x000d (heartbeat_frame 2) None;
                   EvSleep (PyInt 10)] /\
      match keep_alive_round 2 fading_env st1 with
      | Running st2 =>
          trace st2 = trace st1 ++ heartbeat_beat 2 /\
          match keep_alive_round 2 fading_env st2 with
          | Finished st3 => trace st3 = trace st2 ++ [EvIsConnected false]
          | _ => False
          end
      | _ => False
      end
  | _ => False
  end.
Proof. vm_compute. repeat split. Qed.

Lemma keep_alive_trace_witness :
  (exists n tail,
     trace (task_state (heartbeat_run 2 fading_env 1 (Running (opened_session sample_droid_data)))) =
       trace (opened_session sample_droid_data)
         ++ concat (repeat (heartbeat_beat 2) n) ++ tail /\
     match heartbeat_run 2 fading_env 1 (Running (opened_session sample_droid_data)) with
     | Running _ => tail = []
     | Finished _ => tail = [EvIsConnected false]
     | Failed _ _ =>
         tail = [] \/
         tail = [EvIsConnected true; EvWrite 0x000d (heartbeat_frame 2) None] \/
         tail = heartbeat_beat 2
     end) /\
  (forall t',
     heartbeat_step 2 fading_env
       (heartbeat_run 2 fading_env 1 (Running (opened_session sample_droid_data))) t' ->
     exists st1,
       heartbeat_run 2 fading_env 1 (Running (opened_session sample_droid_data)) = Running st1) /\
  (forall c, droid (self (opened_session sample_droid_data)) = Some c ->
     self (task_state (heartbeat_run 2 fading_env 1
                         (Running (opened_session sample_droid_data)))) =
       self (opened_session sample_droid_data) /\
     forall st1,
       heartbeat_run 2 fading_env 1 (Running (opened_session sample_droid_data)) = Running st1 ->
       forall t',
         heartbeat_step 2 fading_env
           (heartbeat_run 2 fading_env 1 (Running (opened_session sample_droid_data))) t' <->
         t' = keep_alive_round 2 fading_env st1).
Proof.
  apply (keep_alive_trace 2 fading_env (opened_session sample_droid_data)
           (heartbeat_run 2 fading_env 1 (Running (opened_session sample_droid_data))));
    [reflexivity | apply heartbeat_run_steps].
Defined.

(** On the sample world the task beats twice and then finishes. *)
Example keep_alive_fading :
  match heartbeat_run 2 fading_env 3 (Running (opened_session sample_droid_data)) with
  | Finished st =>
      trace st = heartbeat_beat 2 ++ heartbeat_beat 2 ++ [EvIsConnected false]
  | _ => False
  end /\
  heartbeat_run 2 fading_env 9 (Running (opened_session sample_droid_data)) =
    heartbeat_run 2 fading_env 3 (Running (opened_session sample_droid_data)).
Proof. split; [vm_compute|]; reflexivity. Qed.



(** With a droid nearby, discovery returns it when [retry] is set and
    returns [None] when it is not. *)
Example discover_droid_nearby :
  discover_droid 1 0 droid_nearby_env 1 false [] =
    Some (Ok None, [EvScannerEnter; EvScannerStart; EvScannerExit]) /\
  match discover_droid 1 0 droid_nearby_env 1 true [] with
  | Some (Ok (Some d), _) =>
      profile d = ProfileDevice {| Bleak.address := "AA:02";
                                   Bleak.name := Some "DROID"%string |} /\
      manufacturer_data d !! 0x0183 = Some sample_droid_data /\
      droid d = None
  | _ => False
  end.
Proof. split; [|repeat split]; vm_compute; reflexivity. Qed.

(** The codec on a few inputs. *)
Example build_droid_command_examples :
  build_droid_command 15 "4405ff" = Ok [0x26; 0x42; 15; 0x43; 0x44; 0x05; 0xff] /\
  build_droid_command 2 EmptyString = Ok [0x23; 0x00; 2; 0x40] /\
  build_droid_command 256 "00" = Raise ValueError /\
  build_droid_command 2 "0g" = Raise ValueError.
Proof. repeat split; reflexivity. Qed.

Example format_02d_examples :
  format_02d 5 = "05"%string /\ format_02d 12 = "12"%string /\
  format_02d 123 = "123"%string /\ format_02d (-5) = "-5"%string /\
  format_02d 0 = "00"%string.
Proof. repeat split; reflexivity. Qed.

Example fromhex_examples :
  fromhex "2Ef0 F1f2  " = Some [0x2e; 0xf0; 0xf1; 0xf2] /\
  fromhex "a b" = None /\ fromhex "abc" = None /\ fromhex "zz" = None.
Proof. repeat split; reflexivity. Qed.

(** A payload with whitespace decodes to fewer bytes than half its length,
    which is what the header counts. *)
Example build_droid_command_padded :
  build_droid_command 2 "  ab" = Ok [0x25; 0x00; 2; 0x42; 0xab].
Proof. reflexivity. Qed.

(** With an empty buffer [connect] raises [IndexError] after the handshake. *)
Example connect_empty_buffer :
  fst (connect 15 0x0183 [] quiet_env true (new_session [])) = Raise IndexError /\
  trace (snd (connect 15 0x0183 [] quiet_env true (new_session []))) =
    [EvClientNew (ProfileUUID "droid"); EvClientConnect; EvIsConnected true;
     connect_code_write; connect_code_write].
Proof. split; vm_compute; reflexivity. Qed.

(** A silent [connect] on the sample droid. *)
Example connect_sample :
  fst (connect 15 0x0183 [] quiet_env true (new_session sample_droid_data)) = Ok tt /\
  personality_id (self (snd (connect 15 0x0183 [] quiet_env true
                               (new_session sample_droid_data)))) = 7 /\
  affilliation_id (self (snd (connect 15 0x0183 [] quiet_env true
                                (new_session sample_droid_data)))) = PyFloat 0 /\
  heartbeat_thread (self (snd (connect 15 0x0183 [] quiet_env true
                                 (new_session sample_droid_data)))) = true.
Proof. repeat split; vm_compute; reflexivity. Qed.

(** On a transport that refuses writes once closed, a second [disconnect]
    that plays its cue raises, after closing the transport once more; a
    silent one returns. *)
Example disconnect_again_strict :
  fst (disconnect 15 short_cue strict_env false
         (snd (disconnect 15 short_cue strict_env false (opened_session sample_droid_data))))
    = Raise (ExternalError "BleakError") /\
  fst (disconnect 15 short_cue strict_env true
         (snd (disconnect 15 short_cue strict_env false (opened_session sample_droid_data))))
    = Ok tt.
Proof. split; vm_compute; reflexivity. Qed.

(** * Further properties *)

(** ** The frame codec, in full *)

(** The bytes [bytes.fromhex] returns are bytes. *)
Lemma fromhex_bytes (n : nat) :
  forall data payload, (String.length data <= n)%nat ->
    fromhex data = Some payload -> forallb is_byte payload = true.
Proof.
  induction n as [n IH] using lt_wf_ind.
  intros [|c rest] payload Hlen H; cbn [fromhex] in H.
  - inversion H. reflexivity.
  - cbn [String.length] in Hlen. destruct (is_space c).
    + apply (IH (String.length rest)) with (data := rest); [lia | lia | exact H].
    + destruct (hex_digit_value c) as [top|] eqn:Htop; [|discriminate H].
      destruct rest as [|d rest']; [discriminate H|].
      destruct (hex_digit_value d) as [bot|] eqn:Hbot; [|discriminate H].
      destruct (fromhex rest') as [bs|] eqn:Hbs; [|discriminate H].
      inversion H; subst. cbn [forallb String.length] in *.
      rewrite (IH (String.length rest')) with (data := rest') (payload := bs);
        [|lia | lia | exact Hbs].
      rewrite andb_true_r. apply hex_digit_value_range in Htop, Hbot. byte_range.
Qed.

Lemma is_byte_range (b : Z) : is_byte b = true <-> 0 <= b <= 255.
Proof.
  unfold is_byte. rewrite andb_true_iff, Z.leb_le, Z.ltb_lt. lia.
Qed.

(** When the encoder returns, the header values were bytes and the payload
    decoded. *)
Lemma build_droid_command_ok_inv (command_id : Z) (data : string) (frame : list Z) :
  build_droid_command command_id data = Ok frame ->
  exists payload,
    fromhex data = Some payload /\
    frame = frame_header command_id (len data / 2) ++ payload /\
    forallb is_byte (frame_header command_id (len data / 2)) = true.
Proof.
  unfold build_droid_command, bytearray_of_ints, frame_header. intros H.
  destruct (forallb is_byte _) eqn:Hb; [|discriminate H].
  destruct (fromhex data) as [payload|]; [|discriminate H].
  inversion H; subst. exists payload. repeat split; reflexivity.
Qed.

(** The encoder returns when the command id is a byte, the payload decodes
    and half the length of the string is at most 191. *)
Lemma build_droid_command_ok (command_id : Z) (data : string) (payload : list Z) :
  0 <= command_id <= 255 ->
  len data / 2 <= 191 ->
  fromhex data = Some payload ->
  build_droid_command command_id data =
    Ok (frame_header command_id (len data / 2) ++ payload).
Proof.
  intros Hid Hn Hp. unfold build_droid_command, frame_header. rewrite Hp.
  assert (Hn0 : 0 <= len data / 2) by (apply Z.div_pos; unfold len; lia).
  set (n := len data / 2) in *.
  assert (Hb1 : is_byte (Z.lor (n + 3) 32) = true).
  { pose proof (lor_byte (n + 3) 32 ltac:(lia) ltac:(lia)) as H. byte_range. }
  assert (Hb2 : is_byte (if command_id =? 15 then 66 else 0) = true)
    by (destruct (command_id =? 15); reflexivity).
  assert (Hb3 : is_byte command_id = true) by byte_range.
  assert (Hb4 : is_byte (n + 64) = true) by byte_range.
  unfold bytearray_of_ints. cbn [forallb]. rewrite Hb1, Hb2, Hb3, Hb4. reflexivity.
Qed.

(** X1. The encoder returns a frame exactly when the command id is a byte,
    half the length of the payload string is at most 191 and the string
    decodes; the frame is then the header computed from half the length of
    the string, followed by the decoded bytes, and all its elements are
    bytes. *)
Theorem build_droid_command_returns (command_id : Z) (data : string) (frame : list Z) :
  build_droid_command command_id data = Ok frame <->
  (0 <= command_id <= 255 /\ len data / 2 <= 191 /\
   exists payload,
     fromhex data = Some payload /\
     frame = frame_header command_id (len data / 2) ++ payload /\
     forallb is_byte frame = true).
Proof.
  split.
  - intros H. destruct (build_droid_command_ok_inv _ _ _ H) as (payload & Hp & Hf & Hb).
    assert (Hall : forallb is_byte frame = true).
    { subst frame. rewrite forallb_app, Hb.
      exact (fromhex_bytes _ data payload (Nat.le_refl _) Hp). }
    unfold frame_header in Hb. cbn [forallb] in Hb.
    repeat (apply andb_prop in Hb as [? Hb]).
    repeat match goal with
           | Hx : is_byte _ = true |- _ => apply is_byte_range in Hx
           end.
    split; [lia|]. split; [lia|]. exists payload. repeat split; assumption.
  - intros (Hid & Hn & payload & Hp & Hf & _). subst frame.
    apply build_droid_command_ok; assumption.
Qed.

(** X2. A command id outside [0,255], or a payload string at least 384
    characters long, makes the encoder raise [ValueError], whatever the rest
    of the input. *)
Theorem build_droid_command_out_of_range (command_id : Z) (data : string) :
  command_id < 0 \/ 255 < command_id \/ 384 <= len data ->
  build_droid_command command_id data = Raise ValueError.
Proof.
  intros H. destruct (build_droid_command command_id data) as [frame|e] eqn:E.
  - exfalso. destruct (build_droid_command_ok_inv _ _ _ E) as (payload & _ & _ & Hb).
    unfold frame_header in Hb. cbn [forallb] in Hb.
    repeat (apply andb_prop in Hb as [? Hb]).
    repeat match goal with
           | Hx : is_byte _ = true |- _ => apply is_byte_range in Hx
           end.
    destruct H as [H|[H|H]]; [lia | lia |].
    assert (192 <= len data / 2) by (apply Z.div_le_lower_bound; lia). lia.
  - unfold build_droid_command in E.
    destruct (bytearray_of_ints _); [destruct (fromhex data)|]; inversion E; reflexivity.
Qed.

(** X3. A frame tells its command and its payload: two calls of the
    encoder that return the same frame had the same command id, payload
    strings of the same half length, and the same decoded bytes. *)
Theorem build_droid_command_injective (id1 id2 : Z) (data1 data2 : string) (frame : list Z) :
  build_droid_command id1 data1 = Ok frame ->
  build_droid_command id2 data2 = Ok frame ->
  id1 = id2 /\ len data1 / 2 = len data2 / 2 /\ fromhex data1 = fromhex data2.
Proof.
  intros H1 H2.
  destruct (build_droid_command_ok_inv _ _ _ H1) as (p1 & Hp1 & Hf1 & _).
  destruct (build_droid_command_ok_inv _ _ _ H2) as (p2 & Hp2 & Hf2 & _).
  rewrite Hf1 in Hf2. unfold frame_header in Hf2. cbn [app] in Hf2.
  inversion Hf2; subst. rewrite Hp1, Hp2. repeat split; try reflexivity; lia.
Qed.

Lemma build_droid_command_bytes (command_id : Z) (data : string) (frame : list Z) :
  build_droid_command command_id data = Ok frame -> forallb is_byte frame = true.
Proof.
  intros H. destruct (build_droid_command_ok_inv _ _ _ H) as (payload & Hp & Hf & Hb).
  subst frame. rewrite forallb_app, Hb.
  exact (fromhex_bytes _ data payload (Nat.le_refl _) Hp).
Qed.

Lemma build_droid_command_raises (command_id : Z) (data : string) (e : exn) :
  build_droid_command command_id data = Raise e -> e = ValueError.
Proof.
  unfold build_droid_command.
  destruct (bytearray_of_ints _); [destruct (fromhex data)|]; intros H; inversion H;
    reflexivity.
Qed.

Lemma build_droid_command_undecodable (command_id : Z) (data : string) :
  fromhex data = None -> build_droid_command command_id data = Raise ValueError.
Proof.
  intros H. unfold build_droid_command. rewrite H.
  destruct (bytearray_of_ints _); reflexivity.
Qed.

(** ** Sub-commands *)

Lemma format_02d_two_digits (n : Z) :
  0 <= n <= 99 -> format_02d n = two_digits n.
Proof.
  intros Hn.
  assert (H : forallb (fun k => String.eqb (format_02d (Z.of_nat k)) (two_digits (Z.of_nat k)))
                      (seq 0 100) = true) by (vm_compute; reflexivity).
  rewrite forallb_forall in H. specialize (H (Z.to_nat n)).
  rewrite Z2Nat.id in H by lia. apply String.eqb_eq, H, in_seq. lia.
Qed.

Lemma format_02d_three_digits (n : Z) :
  100 <= n <= 999 ->
  all_chars is_hex_digit (format_02d n) = true /\ String.length (format_02d n) = 3%nat.
Proof.
  intros Hn.
  assert (H : forallb (fun k => all_chars is_hex_digit (format_02d (Z.of_nat k)) &&
                                (String.length (format_02d (Z.of_nat k)) =? 3)%nat)
                      (seq 100 900) = true) by (vm_compute; reflexivity).
  rewrite forallb_forall in H. specialize (H (Z.to_nat n)).
  rewrite Z2Nat.id in H by lia.
  destruct (andb_prop _ _ (H ltac:(apply in_seq; lia))) as [H1 H2].
  split; [exact H1 | apply Nat.eqb_eq, H2].
Qed.

Lemma all_chars_append (p : ascii -> bool) (s1 s2 : string) :
  all_chars p (s1 ++ s2) = all_chars p s1 && all_chars p s2.
Proof.
  induction s1 as [|c s1 IH]; simpl; [reflexivity|].
  rewrite IH, andb_assoc. reflexivity.
Qed.

Lemma string_length_append (s1 s2 : string) :
  String.length (s1 ++ s2) = (String.length s1 + String.length s2)%nat.
Proof.
  induction s1 as [|c s1 IH]; simpl; [reflexivity|].
  rewrite IH. reflexivity.
Qed.

(** X4. A sub-command id from 0 to 99 travels as one byte whose two
    hexadecimal digits are its two decimal digits (10 travels as [0x10]):
    for a command id that is a byte and a payload that decodes, the frame
    of a multi command is the header for two more bytes, then [0x44], that
    byte, and the decoded payload. *)
Theorem multi_command_frame (MultipurposeCommand command_id : Z) (data : string)
    (payload : list Z) :
  0 <= MultipurposeCommand <= 255 ->
  0 <= command_id <= 99 ->
  fromhex data = Some payload ->
  len data / 2 <= 189 ->
  build_droid_command MultipurposeCommand (multi_command_data command_id data) =
    Ok (frame_header MultipurposeCommand (len data / 2 + 2)
        ++ 0x44 :: packed_decimal command_id :: payload).
Proof.
  intros Hm Hid Hp Hn.
  assert (Hq : 0 <= command_id / 10 < 16).
  { split; [apply Z.div_pos; lia | apply Z.div_lt_upper_bound; lia]. }
  assert (Hr : 0 <= command_id mod 10 < 16)
    by (pose proof (Z.mod_pos_bound command_id 10); lia).
  destruct (hex_digit_roundtrip _ Hq) as [Hq1 Hq2].
  destruct (hex_digit_roundtrip _ Hr) as [Hr1 _].
  assert (Hdata : multi_command_data command_id data =
                  String "4" (String "4" (String (hex_digit (command_id / 10))
                    (String (hex_digit (command_id mod 10)) data)))).
  { unfold multi_command_data. rewrite (format_02d_two_digits _ Hid). reflexivity. }
  assert (Hlen : len (multi_command_data command_id data) / 2 = len data / 2 + 2).
  { rewrite Hdata. unfold len. cbn [String.length].
    replace (Z.of_nat (S (S (S (S (String.length data))))))
      with (Z.of_nat (String.length data) + 2 * 2) by lia.
    apply Z.div_add. lia. }
  rewrite <- Hlen. apply build_droid_command_ok; [exact Hm | lia |].
  rewrite Hdata.
  change (fromhex (String "4" (String "4" ?s))) with
    (match fromhex s with Some bs => Some (0x44 :: bs) | None => None end).
  cbn [fromhex]. rewrite Hq2, Hq1, Hr1, Hp. unfold packed_decimal.
  replace (command_id / 10 * 16) with (16 * (command_id / 10)) by lia. reflexivity.
Qed.

Lemma multi_command_frame_witness :
  build_droid_command 15 (multi_command_data 10 "ff") =
    Ok (frame_header 15 (len "ff" / 2 + 2) ++ 0x44 :: packed_decimal 10 :: [0xff]).
Proof.
  apply (multi_command_frame 15 10 "ff" [0xff]);
    [lia | lia | reflexivity | vm_compute; discriminate].
Defined.

(** X5. A negative sub-command id is formatted with a minus sign, which is
    no hexadecimal digit: the multi command raises [ValueError] for every
    payload and writes nothing. *)
Theorem multi_command_negative (MultipurposeCommand command_id : Z) (data : string)
    (env : Env) (st : St) :
  command_id < 0 ->
  build_droid_command MultipurposeCommand (multi_command_data command_id data)
    = Raise ValueError /\
  send_droid_multi_command MultipurposeCommand env command_id data st
    = (Raise ValueError, st).
Proof.
  intros Hid.
  assert (Hb : build_droid_command MultipurposeCommand (multi_command_data command_id data)
               = Raise ValueError).
  { apply build_droid_command_undecodable.
    unfold multi_command_data, format_02d.
    replace (command_id <? 0) with true by (symmetry; apply Z.ltb_lt; exact Hid).
    reflexivity. }
  split; [exact Hb|].
  unfold send_droid_multi_command, send_droid_command, bind, lift. rewrite Hb. reflexivity.
Qed.

Lemma multi_command_negative_witness :
  build_droid_command 15 (multi_command_data (-1) "ff") = Raise ValueError /\
  send_droid_multi_command 15 quiet_env (-1) "ff" (opened_session sample_droid_data)
    = (Raise ValueError, opened_session sample_droid_data).
Proof.
  apply (multi_command_negative 15 (-1) "ff" quiet_env (opened_session sample_droid_data)).
  lia.
Defined.

(** X6. A sub-command id from 100 to 999 is formatted with three digits,
    so that a payload of whole bytes in hexadecimal digits becomes a string
    of odd length: the multi command raises [ValueError] and writes
    nothing. *)
Theorem multi_command_three_digits (MultipurposeCommand command_id : Z) (data : string)
    (env : Env) (st : St) :
  100 <= command_id <= 999 ->
  all_chars is_hex_digit data = true ->
  Nat.even (String.length data) = true ->
  build_droid_command MultipurposeCommand (multi_command_data command_id data)
    = Raise ValueError /\
  send_droid_multi_command MultipurposeCommand env command_id data st
    = (Raise ValueError, st).
Proof.
  intros Hid Hhex Heven.
  destruct (format_02d_three_digits _ Hid) as [Hd Hl].
  assert (Hb : build_droid_command MultipurposeCommand (multi_command_data command_id data)
               = Raise ValueError).
  { apply build_droid_command_undecodable.
    apply (fromhex_odd _ _ (Nat.le_refl _)); unfold multi_command_data.
    - rewrite !all_chars_append, Hd, Hhex. reflexivity.
    - rewrite !string_length_append, Hl. cbn [String.length Nat.add].
      rewrite Nat.odd_succ, Nat.even_succ, Nat.odd_succ, Nat.even_succ, Nat.odd_succ.
      exact Heven. }
  split; [exact Hb|].
  unfold send_droid_multi_command, send_droid_command, bind, lift. rewrite Hb. reflexivity.
Qed.

Lemma multi_command_three_digits_witness :
  build_droid_command 15 (multi_command_data 100 "ff") = Raise ValueError /\
  send_droid_multi_command 15 quiet_env 100 "ff" (opened_session sample_droid_data)
    = (Raise ValueError, opened_session sample_droid_data).
Proof.
  apply (multi_command_three_digits 15 100 "ff" quiet_env (opened_session sample_droid_data));
    [lia | reflexivity | reflexivity].
Defined.

(** ** Sending *)

Section FurtherSession.

Variable FlashPairingLed : Z.
Variable MultipurposeCommand : Z.
Variable DisneyManufacturerId : Z.
Variable DroidPairingSequence1 : list Action.
Variable play_shutdown_audio : list Action.
Variable env : Env.

(** X7. On a session that has its transport, [send_droid_command] with
    an input the encoder accepts makes exactly one call, the write of the
    built frame, unchanged by the passage through hexadecimal, on handle
    [0x000d]; it leaves the object as it is and raises only what the write
    raises. *)
Theorem send_droid_command_writes_frame (command_id : Z) (data : string)
    (frame : list Z) (st : St) (c : Profile) :
  droid (self st) = Some c ->
  build_droid_command command_id data = Ok frame ->
  send_droid_command env command_id data st =
    (match env_raises env (trace st) (EvWrite 0x000d frame None) with
     | None => Ok tt
     | Some e => Raise e
     end,
     {| self := self st; trace := trace st ++ [EvWrite 0x000d frame None] |}).
Proof.
  intros Hd Hb. unfold send_droid_command, bind at 1, lift. rewrite Hb.
  rewrite (with_droid_some _ st c Hd). unfold bind, bytearray_fromhex.
  rewrite (fromhex_hex _ (build_droid_command_bytes _ _ _ Hb)). unfold ret.
  apply call_eq.
Qed.

(** X8. On a session without transport [send_droid_command] raises and
    changes nothing: [ValueError] when the encoder rejects the input,
    [AttributeError] otherwise. *)
Theorem send_droid_command_no_transport (command_id : Z) (data : string) (st : St) :
  droid (self st) = None ->
  send_droid_command env command_id data st =
    (Raise (match build_droid_command command_id data with
            | Ok _ => AttributeError
            | Raise _ => ValueError
            end), st).
Proof.
  intros Hd. unfold send_droid_command, bind at 1, lift.
  destruct (build_droid_command command_id data) as [frame|e] eqn:Hb.
  - apply with_droid_none, Hd.
  - rewrite (build_droid_command_raises _ _ _ Hb). reflexivity.
Qed.

End FurtherSession.

Lemma send_droid_command_writes_frame_witness :
  send_droid_command quiet_env 15 "4405ff" (opened_session sample_droid_data) =
    (match env_raises quiet_env (trace (opened_session sample_droid_data))
             (EvWrite 0x000d [0x26; 0x42; 15; 0x43; 0x44; 0x05; 0xff] None) with
     | None => Ok tt
     | Some e => Raise e
     end,
     {| self := self (opened_session sample_droid_data);
        trace := trace (opened_session sample_droid_data)
                 ++ [EvWrite 0x000d [0x26; 0x42; 15; 0x43; 0x44; 0x05; 0xff] None] |}).
Proof.
  apply (send_droid_command_writes_frame quiet_env 15 "4405ff"
           [0x26; 0x42; 15; 0x43; 0x44; 0x05; 0xff]
           (opened_session sample_droid_data) (ProfileUUID "droid"));
    reflexivity.
Defined.

Lemma send_droid_command_no_transport_witness :
  send_droid_command quiet_env 15 "4405ff" (new_session sample_droid_data) =
    (Raise (match build_droid_command 15 "4405ff" with
            | Ok _ => AttributeError
            | Raise _ => ValueError
            end), new_session sample_droid_data).
Proof.
  apply (send_droid_command_no_transport quiet_env 15 "4405ff"
           (new_session sample_droid_data)).
  reflexivity.
Defined.

(** ** Connecting, further *)

Section FurtherConnect.

Variable MultipurposeCommand : Z.
Variable DisneyManufacturerId : Z.
Variable DroidPairingSequence1 : list Action.
Variable env : Env.

Lemma count_events_app (p : Event -> bool) (l1 l2 : list Event) :
  count_events p (l1 ++ l2) = (count_events p l1 + count_events p l2)%nat.
Proof.
  induction l1 as [|ev l1 IH]; cbn [app count_events]; [reflexivity|].
  rewrite IH. lia.
Qed.

(** Once [k] more additions take the timeout to 10 or beyond, the polling
    loop sleeps at most [k] times and reads the status at most [k + 1]
    times. *)
Lemma connect_wait_counts (k : nat) :
  forall timeout n st,
    PrimFloat.ltb (ticks k timeout) (float_of_Z 10) = false ->
    exists evs,
      trace (snd (connect_wait env n timeout st)) = trace st ++ evs /\
      (count_events is_sleep evs <= k)%nat /\
      (count_events is_status_read evs <= S k)%nat.
Proof.
  induction k as [|k IH]; intros timeout n st Hk.
  - destruct n as [|n]; cbn [connect_wait].
    { exists []. rewrite app_nil_r. cbn. repeat split; lia. }
    unfold bind, droid_is_connected.
    destruct (droid (self st)) as [c|] eqn:Hd.
    + rewrite (with_droid_some _ st c Hd). cbn [ticks] in Hk. rewrite Hk, andb_false_r.
      eexists. split; [reflexivity|]. cbn. split; lia.
    + rewrite (with_droid_none _ st Hd). exists []. rewrite app_nil_r. cbn.
      repeat split; lia.
  - destruct n as [|n]; cbn [connect_wait].
    { exists []. rewrite app_nil_r. cbn. repeat split; lia. }
    unfold bind, droid_is_connected.
    destruct (droid (self st)) as [c|] eqn:Hd.
    2:{ rewrite (with_droid_none _ st Hd). exists []. rewrite app_nil_r. cbn.
        repeat split; lia. }
    rewrite (with_droid_some _ st c Hd).
    destruct (negb (env_is_connected env (trace st)) && _).
    2:{ eexists. split; [reflexivity|]. cbn. split; lia. }
    unfold sleep. rewrite call_eq. cbn [self trace].
    destruct (env_raises env _ _).
    { eexists. cbn [snd trace]. rewrite <- app_assoc. split; [reflexivity|]. cbn. split; lia. }
    cbn [ticks] in Hk.
    match goal with
    | |- context [connect_wait env n ?t ?s] => destruct (IH t n s Hk) as (evs & Ht & Hs & Hr)
    end.
    exists ([EvIsConnected (env_is_connected env (trace st)); EvSleep (PyFloat tenth)] ++ evs).
    rewrite Ht. cbn [trace]. rewrite <- !app_assoc. split; [reflexivity|].
    cbn [app count_events is_sleep is_status_read]. split; lia.
Qed.

(** X9. Whatever the transport reports and whatever raises, the polling
    loop of [connect] sleeps at most 101 times and reads the connection
    status at most 102 times: it cannot hold [connect] back for more than
    101 waits of [.1]. *)
Theorem connect_wait_bounded (n : nat) (st : St) :
  exists evs,
    trace (snd (connect_wait env n (float_of_Z 0) st)) = trace st ++ evs /\
    (count_events is_sleep evs <= 101)%nat /\
    (count_events is_status_read evs <= 102)%nat.
Proof.
  apply (connect_wait_counts 101). vm_compute. reflexivity.
Qed.

(** The polling loop on a transport that never reports itself connected. *)
Lemma connect_wait_deaf (n : nat) :
  (forall tr, env_is_connected env tr = false) ->
  (forall tr ev, env_raises env tr ev = None) ->
  forall timeout st c,
    droid (self st) = Some c ->
    connect_wait env n timeout st =
      (Ok tt, {| self := self st; trace := trace st ++ wait_events n timeout |}).
Proof.
  intros Hdeaf Hquiet. induction n as [|n IH]; intros timeout st c Hd;
    cbn [connect_wait wait_events].
  - rewrite app_nil_r. destruct st; reflexivity.
  - unfold bind, droid_is_connected. rewrite (with_droid_some _ st c Hd), Hdeaf.
    cbn [negb andb]. destruct (PrimFloat.ltb timeout (float_of_Z 10)); [|reflexivity].
    unfold sleep. rewrite call_eq, Hquiet. cbn [self trace].
    rewrite (IH _ _ c) by exact Hd. cbn [self trace]. rewrite <- !app_assoc. reflexivity.
Qed.

(** X10. When the transport never reports itself connected and no call
    raises, [connect] does not give up: after 102 reads of the status and
    101 waits of [.1] it writes the connect code twice all the same. *)
Theorem connect_handshake_never_connected (st : St) :
  (forall tr, env_is_connected env tr = false) ->
  (forall tr ev, env_raises env tr ev = None) ->
  connect_handshake env st =
    (Ok tt,
     {| self := set_droid (Some (profile (self st))) (self st);
        trace := trace st
                 ++ [EvClientNew (profile (self st)); EvClientConnect]
                 ++ concat (repeat [EvIsConnected false; EvSleep (PyFloat tenth)] 101)
                 ++ [EvIsConnected false; connect_code_write; connect_code_write] |}).
Proof.
  intros Hdeaf Hquiet. unfold connect_handshake.
  unfold bind at 1, get_self at 1. unfold bind at 1. rewrite call_eq, Hquiet.
  unfold bind at 1, update_self at 1. cbn [self trace].
  unfold bind at 1. rewrite (with_droid_some _ _ (profile (self st))) by reflexivity.
  rewrite call_eq, Hquiet. cbn [self trace].
  unfold bind at 1.
  rewrite (connect_wait_deaf 102 Hdeaf Hquiet _ _ (profile (self st))) by reflexivity.
  cbn [self trace].
  unfold bind at 1.
  change (bytearray_fromhex "222001") with (@ret (list Z) [0x22; 0x20; 0x01]).
  unfold ret at 1. unfold bind, droid_write_gatt_char.
  rewrite (with_droid_some _ _ (profile (self st))) by reflexivity.
  rewrite call_eq, Hquiet. cbn [self trace].
  rewrite (with_droid_some _ _ (profile (self st))) by reflexivity.
  rewrite call_eq, Hquiet. cbn [self trace].
  replace (wait_events 102 (float_of_Z 0))
    with (concat (repeat [EvIsConnected false; EvSleep (PyFloat tenth)] 101)
          ++ [EvIsConnected false]) by (vm_compute; reflexivity).
  rewrite <- !app_assoc. reflexivity.
Qed.

(** The identity lines touch the two identity attributes and nothing else. *)
Lemma connect_identity_keeps (st : St) (r : result unit) (st' : St) :
  connect_identity DisneyManufacturerId st = (r, st') ->
  trace st' = trace st /\
  profile (self st') = profile (self st) /\
  droid (self st') = droid (self st) /\
  manufacturer_data (self st') = manufacturer_data (self st) /\
  heartbeat_thread (self st') = heartbeat_thread (self st) /\
  heartbeat_loop (self st') = heartbeat_loop (self st).
Proof.
  unfold connect_identity, bind, get_self, lift, update_self.
  destruct (manufacturer_data (self st) !! DisneyManufacturerId) as [droid_data|];
    [|intros H; inversion H; subst; repeat split; reflexivity].
  destruct (py_getitem droid_data _) as [p|e];
    [|intros H; inversion H; subst; repeat split; reflexivity].
  cbn [self trace].
  destruct (py_getitem droid_data _) as [a|e];
    intros H; inversion H; subst; repeat split; reflexivity.
Qed.

(** The last part of [connect]: what it keeps, and what it does to the
    heartbeat when it returns and when it raises. *)
Lemma connect_finish_cases (silent : bool) (st : St) (r : result unit) (st' : St) :
  connect_finish MultipurposeCommand DroidPairingSequence1 env silent st = (r, st') ->
  profile (self st') = profile (self st) /\
  droid (self st') = droid (self st) /\
  manufacturer_data (self st') = manufacturer_data (self st) /\
  match r with
  | Ok _ =>
      heartbeat_thread (self st') = true /\
      exists l, heartbeat_loop (self st) = Some l /\
                heartbeat_loop (self st') =
                  Some {| loop_stopped := loop_stopped l;
                          loop_coroutines := S (loop_coroutines l) |}
  | Raise _ =>
      heartbeat_loop (self st') = heartbeat_loop (self st) /\
      (heartbeat_loop (self st) <> None ->
       heartbeat_thread (self st') = heartbeat_thread (self st))
  end.
Proof.
  unfold connect_finish. unfold bind at 1.
  match goal with
  | |- context [(if negb silent then ?a else ?b) st] =>
      assert (Hcue : emits (fun _ => True) (if negb silent then a else b));
      [destruct silent; cbn [negb]; [apply emits_ret|];
       apply emits_bind; [apply emits_run_actions | intros _; apply emits_call; exact I]
      | destruct ((if negb silent then a else b) st) as [[u|e] st1] eqn:C]
  end; apply Hcue in C as (Hs & _).
  - unfold bind, update_self, get_self. cbn [self trace].
    destruct (heartbeat_loop (set_heartbeat_thread true (self st1))) as [l|] eqn:Hl;
      intros E; inversion E; subst; cbn; rewrite Hs in *; cbn in Hl.
    + repeat split; try reflexivity. exists l. split; [exact Hl | reflexivity].
    + repeat split; try reflexivity. intros Hne. contradiction.
  - intros E; inversion E; subst. rewrite Hs. repeat split; reflexivity.
Qed.

(** X11. When [connect] returns, the session holds a transport built on its
    profile, the heartbeat thread is started and one more heartbeat
    coroutine has been handed to the loop than before, so that a second
    [connect] adds a second keep-alive; the profile and the manufacturer
    data are unchanged. *)
Theorem connect_returns_state (silent : bool) (st st' : St) :
  connect MultipurposeCommand DisneyManufacturerId DroidPairingSequence1 env silent st
    = (Ok tt, st') ->
  droid (self st') = Some (profile (self st)) /\
  profile (self st') = profile (self st) /\
  manufacturer_data (self st') = manufacturer_data (self st) /\
  heartbeat_thread (self st') = true /\
  exists l, heartbeat_loop (self st) = Some l /\
            heartbeat_loop (self st') =
              Some {| loop_stopped := loop_stopped l;
                      loop_coroutines := S (loop_coroutines l) |}.
Proof.
  intros C. rewrite connect_eq in C.
  destruct (connect_handshake env st) as [[u|e] st1] eqn:E; [|discriminate C].
  destruct (connect_handshake_inv env _ _ _ E) as [_ H]. destruct (H u eq_refl) as [Hs _].
  unfold bind at 1 in C.
  destruct (connect_identity DisneyManufacturerId st1) as [[u2|e2] st2] eqn:I;
    [|discriminate C].
  destruct (connect_identity_keeps _ _ _ I) as (_ & Hp & Hd & Hm & Ht & Hl).
  destruct (connect_finish_cases _ _ _ _ C) as (Hp3 & Hd3 & Hm3 & Ht3 & l & Hl3 & Hl3').
  rewrite Hd3, Hd, Hp3, Hp, Hm3, Hm, Hs. cbn [droid profile manufacturer_data set_droid].
  repeat split; try reflexivity; [exact Ht3|].
  exists l. split; [|exact Hl3']. rewrite <- Hl3, Hl, Hs. reflexivity.
Qed.

(** X12. When the manufacturer data hold nothing under the vendor id,
    [connect] never returns: it raises, [KeyError] once the handshake is
    through, and leaves the identity and the heartbeat as they were. *)
Theorem connect_missing_vendor_key (silent : bool) (st : St) :
  manufacturer_data (self st) !! DisneyManufacturerId = None ->
  exists e st',
    connect MultipurposeCommand DisneyManufacturerId DroidPairingSequence1 env silent st
      = (Raise e, st') /\
    (forall u, fst (connect_handshake env st) = Ok u -> e = KeyError) /\
    personality_id (self st') = personality_id (self st) /\
    affilliation_id (self st') = affilliation_id (self st) /\
    heartbeat_thread (self st') = heartbeat_thread (self st) /\
    heartbeat_loop (self st') = heartbeat_loop (self st).
Proof.
  intros Hmd. rewrite connect_eq.
  destruct (connect_handshake env st) as [[u|e] st1] eqn:E.
  - destruct (connect_handshake_inv env _ _ _ E) as [_ H].
    destruct (H u eq_refl) as [Hs _]. exists KeyError, st1.
    split.
    + unfold bind at 1. unfold connect_identity, bind, get_self.
      rewrite Hs. cbn [manufacturer_data set_droid]. rewrite Hmd. reflexivity.
    + rewrite Hs. repeat split; reflexivity.
  - exists e, st1. split; [reflexivity|]. split; [cbn; discriminate|].
    destruct (connect_handshake_inv env _ _ _ E) as [[Hs|Hs] _]; rewrite Hs;
      repeat split; reflexivity.
Qed.

(** X13. A [connect] that raises has not started the heartbeat: on a
    session that has its loop, the heartbeat thread and the loop are as they
    were, wherever the failure came from. *)
Theorem connect_raises_no_heartbeat (silent : bool) (st : St) (l : EventLoop) (e : exn) :
  heartbeat_loop (self st) = Some l ->
  fst (connect MultipurposeCommand DisneyManufacturerId DroidPairingSequence1 env silent st)
    = Raise e ->
  heartbeat_thread
    (self (snd (connect MultipurposeCommand DisneyManufacturerId DroidPairingSequence1
                  env silent st))) = heartbeat_thread (self st) /\
  heartbeat_loop
    (self (snd (connect MultipurposeCommand DisneyManufacturerId DroidPairingSequence1
                  env silent st))) = Some l.
Proof.
  intros Hloop.
  destruct (connect MultipurposeCommand DisneyManufacturerId DroidPairingSequence1
              env silent st) as [r st3] eqn:F.
  cbn [fst snd]. intros ->. rewrite connect_eq in F.
  destruct (connect_handshake env st) as [[u|e1] st1] eqn:E.
  2:{ inversion F; subst.
      destruct (connect_handshake_inv env _ _ _ E) as [[Hs|Hs] _]; rewrite Hs;
        split; [reflexivity | exact Hloop | reflexivity | exact Hloop]. }
  destruct (connect_handshake_inv env _ _ _ E) as [_ H]. destruct (H u eq_refl) as [Hs _].
  unfold bind at 1 in F.
  destruct (connect_identity DisneyManufacturerId st1) as [[u2|e2] st2] eqn:I.
  2:{ inversion F; subst.
      destruct (connect_identity_keeps _ _ _ I) as (_ & _ & _ & _ & Ht & Hl).
      rewrite Ht, Hl, Hs. split; [reflexivity | exact Hloop]. }
  destruct (connect_identity_keeps _ _ _ I) as (_ & _ & _ & _ & Ht & Hl).
  destruct (connect_finish_cases _ _ _ _ F) as (_ & _ & _ & Hl3 & Ht3).
  assert (Hl2 : heartbeat_loop (self st2) = Some l) by (rewrite Hl, Hs; exact Hloop).
  rewrite Hl3, Ht3 by (rewrite Hl2; discriminate).
  rewrite Ht, Hs. split; [reflexivity | exact Hl2].
Qed.

End FurtherConnect.

Lemma connect_handshake_never_connected_witness :
  connect_handshake deaf_env (new_session sample_droid_data) =
    (Ok tt,
     {| self := set_droid (Some (profile (self (new_session sample_droid_data))))
                  (self (new_session sample_droid_data));
        trace := trace (new_session sample_droid_data)
                 ++ [EvClientNew (profile (self (new_session sample_droid_data)));
                     EvClientConnect]
                 ++ concat (repeat [EvIsConnected false; EvSleep (PyFloat tenth)] 101)
                 ++ [EvIsConnected false; connect_code_write; connect_code_write] |}).
Proof.
  apply (connect_handshake_never_connected deaf_env (new_session sample_droid_data));
    reflexivity.
Defined.

Lemma connect_returns_state_witness :
  droid (self (snd (connect 15 0x0183 [] quiet_env true (new_session sample_droid_data))))
    = Some (profile (self (new_session sample_droid_data))) /\
  profile (self (snd (connect 15 0x0183 [] quiet_env true (new_session sample_droid_data))))
    = profile (self (new_session sample_droid_data)) /\
  manufacturer_data
    (self (snd (connect 15 0x0183 [] quiet_env true (new_session sample_droid_data))))
    = manufacturer_data (self (new_session sample_droid_data)) /\
  heartbeat_thread
    (self (snd (connect 15 0x0183 [] quiet_env true (new_session sample_droid_data))))
    = true /\
  exists l,
    heartbeat_loop (self (new_session sample_droid_data)) = Some l /\
    heartbeat_loop
      (self (snd (connect 15 0x0183 [] quiet_env true (new_session sample_droid_data))))
      = Some {| loop_stopped := loop_stopped l; loop_coroutines := S (loop_coroutines l) |}.
Proof.
  apply (connect_returns_state 15 0x0183 [] quiet_env true (new_session sample_droid_data)).
  transitivity
    (fst (connect 15 0x0183 [] quiet_env true (new_session sample_droid_data)),
     snd (connect 15 0x0183 [] quiet_env true (new_session sample_droid_data)));
    [apply surjective_pairing | f_equal; vm_compute; reflexivity].
Defined.

Lemma connect_missing_vendor_key_witness :
  exists e st',
    connect 15 0x0999 [] quiet_env true (new_session sample_droid_data) = (Raise e, st') /\
    (forall u, fst (connect_handshake quiet_env (new_session sample_droid_data)) = Ok u ->
               e = KeyError) /\
    personality_id (self st') = personality_id (self (new_session sample_droid_data)) /\
    affilliation_id (self st') = affilliation_id (self (new_session sample_droid_data)) /\
    heartbeat_thread (self st') = heartbeat_thread (self (new_session sample_droid_data)) /\
    heartbeat_loop (self st') = heartbeat_loop (self (new_session sample_droid_data)).
Proof.
  apply (connect_missing_vendor_key 15 0x0999 [] quiet_env true
           (new_session sample_droid_data)).
  reflexivity.
Defined.

Lemma connect_raises_no_heartbeat_witness :
  heartbeat_thread (self (snd (connect 15 0x0183 [] quiet_env true (new_session []))))
    = heartbeat_thread (self (new_session [])) /\
  heartbeat_loop (self (snd (connect 15 0x0183 [] quiet_env true (new_session []))))
    = Some new_event_loop.
Proof.
  apply (connect_raises_no_heartbeat 15 0x0183 [] quiet_env true (new_session [])
           new_event_loop IndexError);
    [reflexivity | vm_compute; reflexivity].
Defined.

(** ** Disconnecting, further *)

Section FurtherDisconnect.

Variable MultipurposeCommand : Z.
Variable play_shutdown_audio : list Action.
Variable env : Env.

(** The [finally] block, in full, on a session that has its transport and
    its loop. *)
Lemma disconnect_close_loop (st : St) (c : Profile) (l : EventLoop) :
  droid (self st) = Some c ->
  heartbeat_loop (self st) = Some l ->
  disconnect_close env st =
    match env_raises env (trace st) EvClientDisconnect with
    | None =>
        (Ok tt,
         {| self := set_heartbeat_loop
                      (Some {| loop_stopped := true; loop_coroutines := loop_coroutines l |})
                      (self st);
            trace := trace st ++ [EvClientDisconnect] |})
    | Some e => (Raise e, {| self := self st; trace := trace st ++ [EvClientDisconnect] |})
    end.
Proof.
  intros Hd Hl. unfold disconnect_close, droid_disconnect. unfold bind at 1.
  rewrite (with_droid_some _ st c Hd), call_eq.
  destruct (env_raises env (trace st) EvClientDisconnect); [reflexivity|].
  unfold bind, get_self, update_self. cbn [self trace]. rewrite Hl. reflexivity.
Qed.

(** X14. [disconnect] stops the loop of the heartbeat exactly when the
    transport's close returns: when the close raises, the loop is left
    running, with the coroutines it had. *)
Theorem disconnect_stops_loop (silent : bool) (st : St) (c : Profile) (l : EventLoop) :
  droid (self st) = Some c ->
  heartbeat_loop (self st) = Some l ->
  heartbeat_loop
    (self (snd (disconnect MultipurposeCommand play_shutdown_audio env silent st))) =
    match env_raises env
            (trace (snd (disconnect_cue MultipurposeCommand play_shutdown_audio env silent st)))
            EvClientDisconnect with
    | None => Some {| loop_stopped := true; loop_coroutines := loop_coroutines l |}
    | Some _ => Some l
    end.
Proof.
  intros Hd Hl. unfold disconnect, try_finally.
  destruct (disconnect_cue MultipurposeCommand play_shutdown_audio env silent st)
    as [r_cue st_cue] eqn:C.
  destruct (emits_disconnect_cue MultipurposeCommand play_shutdown_audio env silent _ _ _ C)
    as (Hs & _).
  rewrite (disconnect_close_loop st_cue c l) by (rewrite Hs; assumption).
  cbn [snd]. destruct (env_raises env (trace st_cue) EvClientDisconnect); cbn [snd self];
    [rewrite Hs; exact Hl | reflexivity].
Qed.

(** The [finally] block touches the loop of the heartbeat at most. *)
Lemma disconnect_close_keeps (st : St) (r : result unit) (st' : St) :
  disconnect_close env st = (r, st') ->
  droid (self st') = droid (self st) /\
  profile (self st') = profile (self st) /\
  manufacturer_data (self st') = manufacturer_data (self st) /\
  personality_id (self st') = personality_id (self st) /\
  affilliation_id (self st') = affilliation_id (self st) /\
  heartbeat_thread (self st') = heartbeat_thread (self st).
Proof.
  unfold disconnect_close, droid_disconnect. unfold bind at 1.
  destruct (droid (self st)) as [c|] eqn:Hd.
  - rewrite (with_droid_some _ st c Hd), call_eq.
    destruct (env_raises env (trace st) EvClientDisconnect).
    + intros H; inversion H; subst. repeat split; cbn; congruence.
    + unfold bind, get_self, update_self, ret. cbn [self trace].
      destruct (heartbeat_loop (self st)); intros H; inversion H; subst;
        repeat split; cbn; congruence.
  - rewrite (with_droid_none _ st Hd). intros H; inversion H; subst.
    repeat split; cbn; congruence.
Qed.

(** X15. [disconnect] never clears what the session holds: the transport
    handle, the profile, the manufacturer data, the identity and the
    heartbeat thread are after the call what they were before, on every
    session and whatever raised. *)
Theorem disconnect_keeps_session (silent : bool) (st : St) :
  droid (self (snd (disconnect MultipurposeCommand play_shutdown_audio env silent st)))
    = droid (self st) /\
  profile (self (snd (disconnect MultipurposeCommand play_shutdown_audio env silent st)))
    = profile (self st) /\
  manufacturer_data
    (self (snd (disconnect MultipurposeCommand play_shutdown_audio env silent st)))
    = manufacturer_data (self st) /\
  personality_id
    (self (snd (disconnect MultipurposeCommand play_shutdown_audio env silent st)))
    = personality_id (self st) /\
  affilliation_id
    (self (snd (disconnect MultipurposeCommand play_shutdown_audio env silent st)))
    = affilliation_id (self st) /\
  heartbeat_thread
    (self (snd (disconnect MultipurposeCommand play_shutdown_audio env silent st)))
    = heartbeat_thread (self st).
Proof.
  destruct (disconnect MultipurposeCommand play_shutdown_audio env silent st)
    as [r st'] eqn:D.
  cbn [snd]. unfold disconnect, try_finally in D.
  destruct (disconnect_cue MultipurposeCommand play_shutdown_audio env silent st)
    as [r_cue st_cue] eqn:C.
  destruct (emits_disconnect_cue MultipurposeCommand play_shutdown_audio env silent _ _ _ C)
    as (Hs & _).
  destruct (disconnect_close env st_cue) as [rc st2] eqn:K.
  apply disconnect_close_keeps in K. rewrite Hs in K.
  destruct rc; inversion D; subst; exact K.
Qed.

(** A collaborator on a session without transport only sleeps. *)
Lemma run_actions_no_transport (actions : list Action) :
  forall st, droid (self st) = None ->
    self (snd (run_actions MultipurposeCommand env actions st)) = self st /\
    exists evs,
      trace (snd (run_actions MultipurposeCommand env actions st)) = trace st ++ evs /\
      Forall (fun ev => is_sleep ev = true) evs.
Proof.
  assert (Hsend : forall command_id data st, droid (self st) = None ->
            exists e, send_droid_command env command_id data st = (Raise e, st)).
  { intros command_id data st Hd. unfold send_droid_command, bind at 1, lift.
    destruct (build_droid_command command_id data); eexists;
      [apply with_droid_none, Hd | reflexivity]. }
  induction actions as [|a actions IH]; intros st Hd; cbn [run_actions].
  - split; [reflexivity|]. exists []. rewrite app_nil_r. split; [reflexivity | constructor].
  - unfold bind. destruct a; cbn [run_action].
    + destruct (Hsend command_id data st Hd) as [e ->]. cbn. split; [reflexivity|].
      exists []. rewrite app_nil_r. split; [reflexivity | constructor].
    + unfold send_droid_multi_command.
      destruct (Hsend MultipurposeCommand (multi_command_data command_id data) st Hd)
        as [e ->].
      cbn. split; [reflexivity|].
      exists []. rewrite app_nil_r. split; [reflexivity | constructor].
    + unfold sleep. rewrite call_eq. destruct (env_raises env (trace st) _).
      * cbn. split; [reflexivity|]. eexists. split; [reflexivity|]. repeat constructor.
      * match goal with
        | |- context [run_actions _ _ _ ?s] =>
            destruct (IH s) as (Hs & evs & Ht & Hall); [exact Hd|]
        end.
        cbn [self trace] in Hs, Ht. split; [exact Hs|].
        exists (EvSleep seconds :: evs). rewrite Ht, <- app_assoc.
        split; [reflexivity | constructor; [reflexivity | exact Hall]].
    + cbn. split; [reflexivity|]. exists []. rewrite app_nil_r.
      split; [reflexivity | constructor].
Qed.

(** X16. On a session that was never connected [disconnect] always raises
    [AttributeError], whatever the cue did; it calls neither the write nor
    the close of a transport (its only interactions are sleeps) and leaves
    the object, the loop of the heartbeat included, as it was. *)
Theorem disconnect_never_connected (silent : bool) (st : St) :
  droid (self st) = None ->
  fst (disconnect MultipurposeCommand play_shutdown_audio env silent st)
    = Raise AttributeError /\
  self (snd (disconnect MultipurposeCommand play_shutdown_audio env silent st)) = self st /\
  exists evs,
    trace (snd (disconnect MultipurposeCommand play_shutdown_audio env silent st))
      = trace st ++ evs /\
    Forall (fun ev => is_sleep ev = true) evs.
Proof.
  intros Hd.
  assert (Hcue : self (snd (disconnect_cue MultipurposeCommand play_shutdown_audio env
                              silent st)) = self st /\
                 exists evs,
                   trace (snd (disconnect_cue MultipurposeCommand play_shutdown_audio env
                                 silent st)) = trace st ++ evs /\
                   Forall (fun ev => is_sleep ev = true) evs).
  { unfold disconnect_cue. destruct silent; cbn [negb].
    - split; [reflexivity|]. exists []. rewrite app_nil_r. split; [reflexivity | constructor].
    - destruct (run_actions_no_transport play_shutdown_audio st Hd)
        as (Hs & evs & Ht & Hall).
      unfold bind.
      destruct (run_actions MultipurposeCommand env play_shutdown_audio st)
        as [[u|e] st1]; cbn [snd] in *.
      + unfold sleep. rewrite call_eq.
        destruct (env_raises env (trace st1) _); cbn [snd self trace];
          (split; [exact Hs|]); exists (evs ++ [EvSleep (PyInt 3)]);
          rewrite Ht, <- app_assoc;
          (split; [reflexivity|]); apply Forall_app; split; try exact Hall;
          repeat constructor.
      + split; [exact Hs|]. exists evs. split; [exact Ht | exact Hall]. }
  unfold disconnect, try_finally.
  destruct (disconnect_cue MultipurposeCommand play_shutdown_audio env silent st)
    as [r_cue st_cue]. cbn [snd] in Hcue. destruct Hcue as (Hs & evs & Ht & Hall).
  assert (Hclose : disconnect_close env st_cue = (Raise AttributeError, st_cue)).
  { unfold disconnect_close, droid_disconnect. unfold bind at 1.
    rewrite (with_droid_none _ st_cue) by (rewrite Hs; exact Hd). reflexivity. }
  rewrite Hclose. cbn [fst snd]. split; [reflexivity|]. split; [exact Hs|].
  exists evs. split; [exact Ht | exact Hall].
Qed.

End FurtherDisconnect.

Lemma disconnect_stops_loop_witness :
  heartbeat_loop
    (self (snd (disconnect 15 short_cue stuck_env false (opened_session sample_droid_data)))) =
    match env_raises stuck_env
            (trace (snd (disconnect_cue 15 short_cue stuck_env false
                           (opened_session sample_droid_data))))
            EvClientDisconnect with
    | None => Some {| loop_stopped := true; loop_coroutines := loop_coroutines new_event_loop |}
    | Some _ => Some new_event_loop
    end.
Proof.
  apply (disconnect_stops_loop 15 short_cue stuck_env false
           (opened_session sample_droid_data) (ProfileUUID "droid") new_event_loop);
    reflexivity.
Defined.

Lemma disconnect_never_connected_witness :
  fst (disconnect 15 failing_cue quiet_env false (new_session sample_droid_data))
    = Raise AttributeError /\
  self (snd (disconnect 15 failing_cue quiet_env false (new_session sample_droid_data)))
    = self (new_session sample_droid_data) /\
  exists evs,
    trace (snd (disconnect 15 failing_cue quiet_env false (new_session sample_droid_data)))
      = trace (new_session sample_droid_data) ++ evs /\
    Forall (fun ev => is_sleep ev = true) evs.
Proof.
  apply (disconnect_never_connected 15 failing_cue quiet_env false
           (new_session sample_droid_data)).
  reflexivity.
Defined.

(** On a transport whose close raises, the loop of the heartbeat is still
    running after [disconnect]. *)
Example disconnect_stuck :
  fst (disconnect 15 short_cue stuck_env true (opened_session sample_droid_data)) =
    Raise (ExternalError "BleakError") /\
  heartbeat_loop
    (self (snd (disconnect 15 short_cue stuck_env true (opened_session sample_droid_data)))) =
    Some new_event_loop.
Proof. split; vm_compute; reflexivity. Qed.

(** ** What [connect] never calls *)

Section ConnectTrace.

Variable MultipurposeCommand : Z.
Variable DisneyManufacturerId : Z.
Variable DroidPairingSequence1 : list Action.
Variable env : Env.
Variable P : Event -> Prop.
Hypothesis P_new : forall p, P (EvClientNew p).
Hypothesis P_connect : P EvClientConnect.
Hypothesis P_status : forall b, P (EvIsConnected b).
Hypothesis P_write : forall handle data response, P (EvWrite handle data response).
Hypothesis P_sleep : forall seconds, P (EvSleep seconds).

Lemma traces_emits {A : Type} (m : M A) : emits P m -> traces P m.
Proof.
  intros Hm st r st' E. destruct (Hm st r st' E) as (_ & evs & Ht & Hall).
  exists evs. split; assumption.
Qed.

Lemma traces_bind {A B : Type} (m : M A) (k : A -> M B) :
  traces P m -> (forall a, traces P (k a)) -> traces P (bind m k).
Proof.
  intros Hm Hk st r st' E. unfold bind in E.
  destruct (m st) as [[a|e] st1] eqn:Em.
  - destruct (Hm _ _ _ Em) as (evs1 & Ht1 & Hall1).
    destruct (Hk a _ _ _ E) as (evs2 & Ht2 & Hall2).
    exists (evs1 ++ evs2).
    split; [rewrite Ht2, Ht1, app_assoc; reflexivity | apply Forall_app; auto].
  - inversion E; subst. exact (Hm _ _ _ Em).
Qed.

Lemma traces_update_self (f : DroidConnection -> DroidConnection) :
  traces P (update_self f).
Proof.
  intros st r st' E. inversion E; subst. exists []. cbn [trace]. rewrite app_nil_r.
  split; [reflexivity | constructor].
Qed.

Lemma emits_send_droid_command_any (command_id : Z) (data : string) :
  emits P (send_droid_command env command_id data).
Proof.
  unfold send_droid_command. apply emits_bind; [apply emits_lift|]. intros command.
  apply emits_with_droid, emits_bind.
  - unfold bytearray_fromhex. destruct (fromhex _); [apply emits_ret | apply emits_raise].
  - intros bs. apply emits_call, P_write.
Qed.

Lemma emits_run_actions_any (l : list Action) :
  emits P (run_actions MultipurposeCommand env l).
Proof.
  induction l as [|a l IH]; cbn [run_actions]; [apply emits_ret|].
  apply emits_bind; [|intros _; exact IH].
  destruct a; cbn [run_action]; unfold send_droid_multi_command, sleep.
  - apply emits_send_droid_command_any.
  - apply emits_send_droid_command_any.
  - apply emits_call, P_sleep.
  - apply emits_raise.
Qed.

Lemma emits_connect_wait_any (fuel : nat) :
  forall timeout, emits P (connect_wait env fuel timeout).
Proof.
  induction fuel as [|fuel IH]; intros timeout; cbn [connect_wait]; [apply emits_ret|].
  apply emits_bind; [apply emits_is_connected, P_status|].
  intros connected. destruct (negb connected && _); [|apply emits_ret].
  apply emits_bind; [apply emits_call, P_sleep | intros _; apply IH].
Qed.

(** Every interaction of [connect] is the building or the opening of the
    transport, a read of its status, a write or a sleep. *)
Lemma traces_connect (silent : bool) :
  traces P (connect MultipurposeCommand DisneyManufacturerId DroidPairingSequence1 env silent).
Proof.
  unfold connect. apply traces_bind; [|intros _; apply traces_bind].
  - unfold connect_handshake.
    apply traces_bind; [apply traces_emits, emits_get_self|]. intros s.
    apply traces_bind; [apply traces_emits, emits_call, P_new|]. intros _.
    apply traces_bind; [apply traces_update_self|]. intros _.
    apply traces_bind; [apply traces_emits, emits_with_droid, emits_call, P_connect|].
    intros _.
    apply traces_bind; [apply traces_emits, emits_connect_wait_any|]. intros _.
    apply traces_bind.
    { apply traces_emits. unfold bytearray_fromhex.
      destruct (fromhex _); [apply emits_ret | apply emits_raise]. }
    intros code.
    apply traces_bind; [|intros _]; apply traces_emits, emits_write, P_write.
  - unfold connect_identity.
    apply traces_bind; [apply traces_emits, emits_get_self|]. intros s.
    destruct (manufacturer_data s !! DisneyManufacturerId);
      [|apply traces_emits, emits_raise].
    apply traces_bind; [apply traces_emits, emits_lift|]. intros p.
    apply traces_bind; [apply traces_update_self|]. intros _.
    apply traces_bind; [apply traces_emits, emits_lift|]. intros a.
    apply traces_update_self.
  - intros _. unfold connect_finish.
    apply traces_bind.
    { destruct silent; cbn [negb]; [apply traces_emits, emits_ret|].
      apply traces_emits, emits_bind; [apply emits_run_actions_any|].
      intros _. apply emits_call, P_sleep. }
    intros _. apply traces_bind; [apply traces_update_self|]. intros _.
    apply traces_bind; [apply traces_emits, emits_get_self|]. intros s.
    destruct (heartbeat_loop s); [apply traces_update_self | apply traces_emits, emits_raise].
Qed.

End ConnectTrace.

(** X17. [connect] never calls the close of the transport: when it
    raises after the transport was opened, the transport is left open. *)
Theorem connect_never_closes (MultipurposeCommand DisneyManufacturerId : Z)
    (DroidPairingSequence1 : list Action) (env : Env) (silent : bool) (st : St) :
  exists evs,
    trace (snd (connect MultipurposeCommand DisneyManufacturerId DroidPairingSequence1
                  env silent st)) = trace st ++ evs /\
    Forall (fun ev => is_close ev = false) evs.
Proof.
  destruct (connect MultipurposeCommand DisneyManufacturerId DroidPairingSequence1
              env silent st) as [r st'] eqn:C.
  cbn [snd].
  apply (traces_connect MultipurposeCommand DisneyManufacturerId DroidPairingSequence1 env
           (fun ev => is_close ev = false)) in C; try exact C; intros; reflexivity.
Qed.

(** A [connect] whose pairing script fails has set the identity and left
    the transport open. *)
Example connect_failing_script :
  fst (connect 15 0x0183 failing_cue quiet_env false (new_session sample_droid_data)) =
    Raise (ExternalError "audio") /\
  droid (self (snd (connect 15 0x0183 failing_cue quiet_env false
                      (new_session sample_droid_data)))) = Some (ProfileUUID "droid") /\
  personality_id (self (snd (connect 15 0x0183 failing_cue quiet_env false
                               (new_session sample_droid_data)))) = 7 /\
  heartbeat_thread (self (snd (connect 15 0x0183 failing_cue quiet_env false
                                 (new_session sample_droid_data)))) = false.
Proof. repeat split; vm_compute; reflexivity. Qed.

(** ** The keep-alive task, further *)

Section FurtherKeepAlive.

Variable FlashPairingLed : Z.
Variable env : Env.

Lemma heartbeat_round_connected (st : St) (c : Profile) :
  (forall tr, env_is_connected env tr = true) ->
  (forall tr ev, env_raises env tr ev = None) ->
  is_byte FlashPairingLed = true ->
  droid (self st) = Some c ->
  heartbeat_round FlashPairingLed env st =
    (Ok true, {| self := self st; trace := trace st ++ heartbeat_beat FlashPairingLed |}).
Proof.
  intros Hup Hquiet Hb Hd. unfold heartbeat_round. unfold bind at 1.
  unfold droid_is_connected. rewrite (with_droid_some _ st c Hd), Hup.
  unfold bind at 1. unfold send_droid_command. unfold bind at 1.
  unfold lift. rewrite (build_heartbeat_frame FlashPairingLed Hb).
  rewrite (with_droid_some _ _ c) by exact Hd.
  unfold bind at 1. unfold bytearray_fromhex.
  rewrite (fromhex_hex _ (heartbeat_frame_bytes FlashPairingLed Hb)). unfold ret at 1.
  rewrite call_eq, Hquiet. cbn [self trace].
  unfold bind, sleep. rewrite call_eq, Hquiet. cbn [self trace].
  unfold ret, heartbeat_beat. rewrite <- !app_assoc. reflexivity.
Qed.

(** X18. On a transport that keeps reporting itself connected, with no
    call raising, the keep-alive task never leaves its loop: every state
    it reaches is a running one, after some number of full rounds, and it
    reaches such a state for every number of rounds. *)
Theorem keep_alive_never_stops (st : St) (c : Profile) :
  (forall tr, env_is_connected env tr = true) ->
  (forall tr ev, env_raises env tr ev = None) ->
  is_byte FlashPairingLed = true ->
  droid (self st) = Some c ->
  (forall t, heartbeat_steps FlashPairingLed env (Running st) t ->
     exists n, t = Running {| self := self st;
                              trace := trace st
                                       ++ concat (repeat (heartbeat_beat FlashPairingLed) n) |}) /\
  (forall n, heartbeat_steps FlashPairingLed env (Running st)
               (Running {| self := self st;
                           trace := trace st
                                    ++ concat (repeat (heartbeat_beat FlashPairingLed) n) |})).
Proof.
  intros Hup Hquiet Hb Hd.
  assert (Hstep : forall n,
    heartbeat_round FlashPairingLed env
      {| self := self st;
         trace := trace st ++ concat (repeat (heartbeat_beat FlashPairingLed) n) |} =
    (Ok true,
     {| self := self st;
        trace := trace st ++ concat (repeat (heartbeat_beat FlashPairingLed) (S n)) |})).
  { intros n. rewrite (heartbeat_round_connected _ c Hup Hquiet Hb) by exact Hd.
    cbn [self trace]. rewrite <- concat_repeat_snoc, <- app_assoc. reflexivity. }
  assert (H0 : st = {| self := self st;
                       trace := trace st
                                ++ concat (repeat (heartbeat_beat FlashPairingLed) 0) |}).
  { cbn [repeat concat]. rewrite app_nil_r. destruct st; reflexivity. }
  split.
  - intros t H. remember (Running st) as t0 eqn:Ht0.
    induction H as [t|t1 t2 t3 H12 IH H23]; subst.
    + exists 0%nat. rewrite <- H0. reflexivity.
    + destruct (IH eq_refl) as [n ->].
      inversion H23 as [st2 st3 E|st2 st3 E|st2 e st3 E]; subst;
        rewrite Hstep in E; inversion E; subst.
      exists (S n). reflexivity.
  - induction n as [|n IH].
    + rewrite <- H0. constructor.
    + eapply heartbeat_steps_step; [exact IH|]. constructor. apply Hstep.
Qed.

End FurtherKeepAlive.

Lemma keep_alive_never_stops_witness :
  (forall t, heartbeat_steps 2 quiet_env (Running (opened_session sample_droid_data)) t ->
     exists n, t = Running {| self := self (opened_session sample_droid_data);
                              trace := trace (opened_session sample_droid_data)
                                       ++ concat (repeat (heartbeat_beat 2) n) |}) /\
  (forall n, heartbeat_steps 2 quiet_env (Running (opened_session sample_droid_data))
               (Running {| self := self (opened_session sample_droid_data);
                           trace := trace (opened_session sample_droid_data)
                                    ++ concat (repeat (heartbeat_beat 2) n) |})).
Proof.
  apply (keep_alive_never_stops 2 quiet_env (opened_session sample_droid_data)
           (ProfileUUID "droid")); reflexivity.
Defined.

(** ** Discovery with [retry] *)

Section FurtherDiscovery.

Variable RUnit : Z.
Variable Scoundrel : Z.
Variable env : Env.


(** The devices before the first one named ["DROID"] do not count. *)
Lemma matching_droids_first (before after : Discovered) (addr : string)
    (ble_device : Bleak.BLEDevice) (advertising_data : Bleak.AdvertisementData) :
  Forall (fun entry => Bleak.name (fst (snd entry)) <> Some "DROID"%string) before ->
  Bleak.name ble_device = Some "DROID"%string ->
  matching_droids (before ++ (addr, (ble_device, advertising_data)) :: after) =
    (ble_device, Bleak.manufacturer_data advertising_data) :: matching_droids after.
Proof.
  intros Hbefore Hname. induction Hbefore as [|[a [d adv]] before Hd _ IH];
    cbn [app matching_droids].
  - rewrite Hname. reflexivity.
  - cbn [fst snd] in Hd. destruct (Bleak.name d) as [n|]; [|exact IH].
    destruct (String.eqb n "DROID") eqn:Heq; [|exact IH].
    apply String.eqb_eq in Heq. subst n. contradiction.
Qed.

(** One round of the loop in [retry] mode, with no droid found before. *)
Lemma discover_loop_round (fuel : nat)
    (discovered_droid : option (Bleak.BLEDevice * gmap Z (list Z))) (tr : list Event) :
  discover_loop env (S fuel) true [] discovered_droid tr =
    match env_discovered env tr with
    | [] =>
        match env_raises env (tr ++ [EvScannerRead []]) (EvAsyncSleep (PyInt 5)) with
        | Some e => Some (Raised e, tr ++ poll_events [])
        | None => discover_loop env fuel true [] discovered_droid (tr ++ poll_events [])
        end
    | entry :: others =>
        match matching_droids (entry :: others) with
        | [] => discover_loop env fuel true [] discovered_droid
                  (tr ++ poll_events (entry :: others))
        | first :: rest =>
            Some (Fell (Some first), tr ++ poll_events (entry :: others))
        end
    end.
Proof.
  cbn [discover_loop andb length Nat.eqb].
  destruct (env_discovered env tr) as [|entry others] eqn:Hseen.
  - cbn [length Nat.eqb matching_droids app negb]. unfold poll_events.
    cbn [length Nat.eqb]. rewrite <- app_assoc.
    destruct (env_raises env _ _); reflexivity.
  - cbn [length Nat.eqb app negb]. unfold poll_events. cbn [length Nat.eqb].
    destruct (matching_droids (entry :: others)) as [|first rest]; [reflexivity|].
    destruct fuel; reflexivity.
Qed.



(** X20. In [retry] mode, while the scanner shows no device named
    ["DROID"], [discover_droid] does not return, however long it runs: it
    never yields a value, and when no call to the scanner or to
    [asyncio.sleep] raises it is still in its loop after any number of
    rounds. *)
Theorem discover_droid_retry_waits (fuel : nat) (tr : list Event) :
  (forall history, matching_droids (env_discovered env history) = []) ->
  (forall v tr', discover_droid RUnit Scoundrel env fuel true tr <> Some (Ok v, tr')) /\
  (scanner_returns env ->
   (forall history seconds, env_raises env history (EvAsyncSleep seconds) = None) ->
   discover_droid RUnit Scoundrel env fuel true tr = None).
Proof.
  intros Hnone.
  assert (Hnever : forall n discovered_droid history exit tr',
            discover_loop env n true [] discovered_droid history = Some (exit, tr') ->
            exists e, exit = Raised e).
  { induction n as [|n IH]; intros discovered_droid history exit tr' L;
      [discriminate L|].
    rewrite discover_loop_round in L.
    destruct (env_discovered env history) as [|entry others] eqn:Hseen.
    - destruct (env_raises env _ _) as [e|].
      + inversion L; subst. exists e. reflexivity.
      + exact (IH _ _ _ _ L).
    - rewrite <- Hseen, Hnone in L. exact (IH _ _ _ _ L). }
  split.
  - intros v tr' H. unfold discover_droid in H.
    destruct (env_raises env tr EvScannerEnter); [discriminate H|].
    destruct (env_raises env (tr ++ [EvScannerEnter]) EvScannerStart).
    { destruct (env_raises env _ EvScannerExit); discriminate H. }
    destruct (discover_loop env fuel true [] None
                ((tr ++ [EvScannerEnter]) ++ [EvScannerStart]))
      as [[exit tr1]|] eqn:L; [|discriminate H].
    destruct (Hnever _ _ _ _ _ L) as [e ->].
    destruct (env_raises env tr1 EvScannerExit); discriminate H.
  - intros Hscan Hsleep.
    assert (Hloop : forall n discovered_droid history,
              discover_loop env n true [] discovered_droid history = None).
    { induction n as [|n IH]; intros discovered_droid history; [reflexivity|].
      rewrite discover_loop_round.
      destruct (env_discovered env history) as [|entry others] eqn:Hseen.
      - rewrite Hsleep. apply IH.
      - rewrite <- Hseen, Hnone. apply IH. }
    unfold discover_droid.
    rewrite (proj1 (Hscan tr)), (proj1 (proj2 (Hscan (tr ++ [EvScannerEnter])))), Hloop.
    reflexivity.
Qed.

(** X21. In [retry] mode, when the calls to the scanner return and its
    first read shows a device named ["DROID"], [discover_droid] returns
    after that one read, with a new session on the first such device in the
    order of the dict and with its manufacturer data; the droids after it
    are found and dropped. *)
Theorem discover_droid_first_match (fuel : nat) (tr : list Event)
    (before after : Discovered) (addr : string)
    (ble_device : Bleak.BLEDevice) (advertising_data : Bleak.AdvertisementData) :
  scanner_returns env ->
  env_discovered env (tr ++ [EvScannerEnter; EvScannerStart]) =
    before ++ (addr, (ble_device, advertising_data)) :: after ->
  Forall (fun entry => Bleak.name (fst (snd entry)) <> Some "DROID"%string) before ->
  Bleak.name ble_device = Some "DROID"%string ->
  discover_droid RUnit Scoundrel env (S fuel) true tr =
    Some (Ok (Some (init RUnit Scoundrel (ProfileDevice ble_device)
                      (Bleak.manufacturer_data advertising_data))),
          tr ++ [EvScannerEnter; EvScannerStart;
                 EvScannerRead (before ++ (addr, (ble_device, advertising_data)) :: after);
                 EvScannerExit]).
Proof.
  intros Hscan Hseen Hbefore Hname. unfold discover_droid.
  rewrite (proj1 (Hscan tr)), (proj1 (proj2 (Hscan (tr ++ [EvScannerEnter])))).
  rewrite discover_loop_round.
  replace ((tr ++ [EvScannerEnter]) ++ [EvScannerStart])
    with (tr ++ [EvScannerEnter; EvScannerStart]) by (rewrite <- app_assoc; reflexivity).
  rewrite Hseen.
  assert (Hm : matching_droids (before ++ (addr, (ble_device, advertising_data)) :: after) =
               (ble_device, Bleak.manufacturer_data advertising_data)
                 :: matching_droids after)
    by (apply matching_droids_first; assumption).
  destruct (before ++ (addr, (ble_device, advertising_data)) :: after)
    as [|entry others] eqn:Hlist; [destruct before; discriminate Hlist|].
  rewrite Hm. unfold poll_events. cbn [length Nat.eqb].
  rewrite (proj2 (proj2 (Hscan _))), <- !app_assoc. reflexivity.
Qed.

End FurtherDiscovery.


Lemma discover_droid_retry_waits_witness :
  (forall v tr', discover_droid 1 0 quiet_env 7 true [] <> Some (Ok v, tr')) /\
  discover_droid 1 0 quiet_env 7 true [] = None.
Proof.
  destruct (discover_droid_retry_waits 1 0 quiet_env 7 [] (fun history => eq_refl))
    as [Hnever Hloop].
  split; [exact Hnever|].
  apply Hloop; [intros history; repeat split; reflexivity | intros history seconds; reflexivity].
Defined.

Lemma discover_droid_first_match_witness :
  discover_droid 1 0 droid_nearby_env 1 true [] =
    Some (Ok (Some (init 1 0
                      (ProfileDevice {| Bleak.address := "AA:02";
                                        Bleak.name := Some "DROID"%string |})
                      (Bleak.manufacturer_data
                         {| Bleak.local_name := Some "DROID"%string;
                            Bleak.manufacturer_data :=
                              {[ 0x0183 := [0x03; 0x04; 0x80; 0x07] ]} |}))),
          [] ++ [EvScannerEnter; EvScannerStart;
                 EvScannerRead
                   ([("AA:01"%string,
                      ({| Bleak.address := "AA:01"; Bleak.name := Some "TV"%string |},
                       {| Bleak.local_name := Some "TV"%string;
                          Bleak.manufacturer_data := ∅ |}))]
                    ++ ("AA:02"%string,
                        ({| Bleak.address := "AA:02"; Bleak.name := Some "DROID"%string |},
                         {| Bleak.local_name := Some "DROID"%string;
                            Bleak.manufacturer_data :=
                              {[ 0x0183 := [0x03; 0x04; 0x80; 0x07] ]} |})) :: []);
                 EvScannerExit]).
Proof.
  apply (discover_droid_first_match 1 0 droid_nearby_env 0 []
           [("AA:01"%string,
             ({| Bleak.address := "AA:01"; Bleak.name := Some "TV"%string |},
              {| Bleak.local_name := Some "TV"%string; Bleak.manufacturer_data := ∅ |}))]
           []);
    [intros history; repeat split; reflexivity
    | reflexivity | repeat constructor; discriminate | reflexivity].
Defined.

(** The scanner shows nothing twice, then a droid: two sleeps of 5, three
    reads. *)
Example discover_droid_late :
  match discover_droid 1 0 late_droid_env 5 true [] with
  | Some (Ok (Some d), tr') =>
      count_events (fun ev => match ev with EvAsyncSleep _ => true | _ => false end) tr' = 2%nat /\
      count_events (fun ev => match ev with EvScannerRead _ => true | _ => false end) tr' = 3%nat /\
      manufacturer_data d !! 0x0183 = Some sample_droid_data
  | _ => False
  end.
Proof. vm_compute. repeat split; reflexivity. Qed.

(** ** Calls in a row *)

Section CallsInARow.

Variable MultipurposeCommand : Z.
Variable play_shutdown_audio : list Action.
Variable env : Env.

Lemma emits_disconnect_cue_no_close (silent : bool) :
  emits (fun ev => is_close ev = false)
        (disconnect_cue MultipurposeCommand play_shutdown_audio env silent).
Proof.
  unfold disconnect_cue. destruct silent; cbn [negb]; [apply emits_ret|].
  apply emits_bind.
  - apply emits_run_actions_any; intros; reflexivity.
  - intros _. apply emits_call. reflexivity.
Qed.

(** One [disconnect] on a session that has its transport: the interactions
    of the cue, none of them a close, then one close. *)
Lemma disconnect_one_close (silent : bool) (st : St) (c : Profile) :
  droid (self st) = Some c ->
  droid (self (snd (disconnect MultipurposeCommand play_shutdown_audio env silent st)))
    = Some c /\
  exists evs,
    trace (snd (disconnect MultipurposeCommand play_shutdown_audio env silent st)) =
      trace st ++ evs ++ [EvClientDisconnect] /\
    Forall (fun ev => is_close ev = false) evs.
Proof.
  intros Hd.
  destruct (disconnect_outcome MultipurposeCommand play_shutdown_audio env silent st c Hd)
    as (r_cue & st_cue & st' & C & E & _ & Ht' & Hd').
  rewrite E. cbn [snd]. split; [exact Hd'|].
  destruct (emits_disconnect_cue_no_close silent _ _ _ C) as (_ & evs & Ht & Hall).
  exists evs. split; [rewrite Ht', Ht, app_assoc; reflexivity | exact Hall].
Qed.

(** X22. Nothing in [disconnect] remembers that the transport was closed:
    two calls in a row on a session that has its transport close it twice,
    each time after the interactions of the cue of that call. *)
Theorem disconnect_twice_closes_twice (silent1 silent2 : bool) (st : St) (c : Profile) :
  droid (self st) = Some c ->
  exists evs1 evs2,
    trace (snd (disconnect MultipurposeCommand play_shutdown_audio env silent2
                  (snd (disconnect MultipurposeCommand play_shutdown_audio env silent1 st))))
      = trace st ++ evs1 ++ [EvClientDisconnect] ++ evs2 ++ [EvClientDisconnect] /\
    Forall (fun ev => is_close ev = false) evs1 /\
    Forall (fun ev => is_close ev = false) evs2.
Proof.
  intros Hd.
  destruct (disconnect_one_close silent1 st c Hd) as (Hd1 & evs1 & Ht1 & Hall1).
  destruct (disconnect_one_close silent2 _ c Hd1) as (_ & evs2 & Ht2 & Hall2).
  exists evs1, evs2. rewrite Ht2, Ht1, <- !app_assoc.
  split; [reflexivity|]. split; assumption.
Qed.

(** X23. Nothing in [send_droid_command] looks at whether [disconnect] was
    called: after a [disconnect] on a session that has its transport, a
    command the encoder accepts is still written, as the next interaction. *)
Theorem send_after_disconnect (silent : bool) (st : St) (c : Profile)
    (command_id : Z) (data : string) (frame : list Z) :
  droid (self st) = Some c ->
  build_droid_command command_id data = Ok frame ->
  trace (snd (send_droid_command env command_id data
                (snd (disconnect MultipurposeCommand play_shutdown_audio env silent st))))
    = trace (snd (disconnect MultipurposeCommand play_shutdown_audio env silent st))
      ++ [EvWrite 0x000d frame None].
Proof.
  intros Hd Hb.
  destruct (disconnect_one_close silent st c Hd) as (Hd1 & _).
  unfold send_droid_command, bind at 1, lift. rewrite Hb.
  rewrite (with_droid_some _ _ c Hd1). unfold bind, bytearray_fromhex.
  rewrite (fromhex_hex _ (build_droid_command_bytes _ _ _ Hb)). unfold ret.
  rewrite call_eq. reflexivity.
Qed.

End CallsInARow.

Lemma disconnect_twice_closes_twice_witness :
  exists evs1 evs2,
    trace (snd (disconnect 15 short_cue quiet_env false
                  (snd (disconnect 15 short_cue quiet_env false
                          (opened_session sample_droid_data)))))
      = trace (opened_session sample_droid_data)
        ++ evs1 ++ [EvClientDisconnect] ++ evs2 ++ [EvClientDisconnect] /\
    Forall (fun ev => is_close ev = false) evs1 /\
    Forall (fun ev => is_close ev = false) evs2.
Proof.
  apply (disconnect_twice_closes_twice 15 short_cue quiet_env false false
           (opened_session sample_droid_data) (ProfileUUID "droid")).
  reflexivity.
Defined.

Lemma send_after_disconnect_witness :
  trace (snd (send_droid_command quiet_env 15 "4405ff"
                (snd (disconnect 15 short_cue quiet_env true
                        (opened_session sample_droid_data)))))
    = trace (snd (disconnect 15 short_cue quiet_env true (opened_session sample_droid_data)))
      ++ [EvWrite 0x000d [0x26; 0x42; 15; 0x43; 0x44; 0x05; 0xff] None].
Proof.
  apply (send_after_disconnect 15 short_cue quiet_env true
           (opened_session sample_droid_data) (ProfileUUID "droid") 15 "4405ff"
           [0x26; 0x42; 15; 0x43; 0x44; 0x05; 0xff]);
    reflexivity.
Defined.

(** ** The identity, further *)

(** X24. On a buffer of one byte the identity lines do not fail: the
    index [-1] reads the only byte again, and both identity values are
    taken from it; a [connect] that returns leaves them in the session. *)
Theorem connect_identity_one_byte (MultipurposeCommand DisneyManufacturerId : Z)
    (DroidPairingSequence1 : list Action) (env : Env) (silent : bool) (st st' : St) (b : Z) :
  manufacturer_data (self st) !! DisneyManufacturerId = Some [b] ->
  connect MultipurposeCommand DisneyManufacturerId DroidPairingSequence1 env silent st
    = (Ok tt, st') ->
  personality_id (self st') = b /\
  affilliation_id (self st') = PyFloat (int_truediv (b - 0x80) 2).
Proof.
  intros Hmd C. rewrite connect_eq in C.
  destruct (connect_handshake env st) as [[u|e] st1] eqn:E; [|discriminate C].
  destruct (connect_handshake_inv env _ _ _ E) as [_ H]. destruct (H u eq_refl) as [Hs _].
  unfold bind at 1 in C.
  assert (Hid : connect_identity DisneyManufacturerId st1 =
                (Ok tt,
                 {| self := set_affilliation_id (PyFloat (int_truediv (b - 0x80) 2))
                              (set_personality_id b (self st1));
                    trace := trace st1 |})).
  { assert (Hmd1 : manufacturer_data (self st1) !! DisneyManufacturerId = Some [b])
      by (rewrite Hs; exact Hmd).
    unfold connect_identity, bind, get_self. rewrite Hmd1. reflexivity. }
  rewrite Hid in C.
  apply (connect_finish_identity MultipurposeCommand DroidPairingSequence1 env) in C.
  exact C.
Qed.

Lemma connect_identity_one_byte_witness :
  personality_id (self (snd (connect 15 0x0183 [] quiet_env true (new_session [0x07]))))
    = 0x07 /\
  affilliation_id (self (snd (connect 15 0x0183 [] quiet_env true (new_session [0x07]))))
    = PyFloat (int_truediv (0x07 - 0x80) 2).
Proof.
  apply (connect_identity_one_byte 15 0x0183 [] quiet_env true (new_session [0x07])
           (snd (connect 15 0x0183 [] quiet_env true (new_session [0x07]))) 0x07);
    [reflexivity|].
  transitivity
    (fst (connect 15 0x0183 [] quiet_env true (new_session [0x07])),
     snd (connect 15 0x0183 [] quiet_env true (new_session [0x07])));
    [apply surjective_pairing | f_equal; vm_compute; reflexivity].
Defined.

(** X25. The affiliation is a true quotient, not a floored one: for an
    even byte it is the whole number [(b - 0x80) // 2], for an odd byte
    that number plus one half, and it is negative for every byte below
    [0x80]. *)
Theorem affiliation_of_byte (b : Z) :
  0 <= b <= 255 ->
  PrimFloat.eqb (int_truediv (b - 0x80) 2)
    (PrimFloat.add (float_of_Z ((b - 0x80) / 2)) (if Z.even b then 0 else 0.5)) = true /\
  PrimFloat.ltb (int_truediv (b - 0x80) 2) 0 = (b <? 0x80).
Proof.
  intros Hb.
  assert (H : forallb
                (fun k =>
                   PrimFloat.eqb (int_truediv (Z.of_nat k - 0x80) 2)
                     (PrimFloat.add (float_of_Z ((Z.of_nat k - 0x80) / 2))
                        (if Z.even (Z.of_nat k) then 0 else 0.5))
                   && Bool.eqb (PrimFloat.ltb (int_truediv (Z.of_nat k - 0x80) 2) 0)
                               (Z.of_nat k <? 0x80))
                (seq 0 256) = true) by (vm_compute; reflexivity).
  rewrite forallb_forall in H. specialize (H (Z.to_nat b)).
  rewrite Z2Nat.id in H by lia.
  destruct (andb_prop _ _ (H ltac:(apply in_seq; lia))) as [H1 H2].
  split; [exact H1 | apply Bool.eqb_prop, H2].
Qed.

Lemma affiliation_of_byte_witness :
  PrimFloat.eqb (int_truediv (0x81 - 0x80) 2)
    (PrimFloat.add (float_of_Z ((0x81 - 0x80) / 2)) (if Z.even 0x81 then 0 else 0.5)) = true /\
  PrimFloat.ltb (int_truediv (0x81 - 0x80) 2) 0 = (0x81 <? 0x80).
Proof.
  apply (affiliation_of_byte 0x81). lia.
Defined.

(** ** The codec on sample inputs *)

Lemma build_droid_command_out_of_range_witness :
  build_droid_command 256 "00" = Raise ValueError.
Proof.
  apply (build_droid_command_out_of_range 256 "00"). right; left. lia.
Defined.

Lemma build_droid_command_injective_witness :
  15 = 15 /\ len "4405ff" / 2 = len "4405FF" / 2 /\ fromhex "4405ff" = fromhex "4405FF".
Proof.
  apply (build_droid_command_injective 15 15 "4405ff" "4405FF"
           [0x26; 0x42; 15; 0x43; 0x44; 0x05; 0xff]);
    reflexivity.
Defined.
